(** * ITDB Fact-Sheet Analyzer: the structured extractor and the PDF pipeline

    A shallow embedding of [extractors/json_extractor.py] and
    [extractors/pdf_parser.py], and the properties of the extractor's retry
    loop, its JSON-block locator, its prompt and the PDF helpers.

    Conventions.
    - A Python [str] is the list of its code points ([pystr]).
    - A Python call either returns or raises: [py_result].
    - Code that talks to the outside (the chat-completion client, the logger,
      PyMuPDF, the splitter, the embedding client) runs in the monad [M],
      which threads the chronological trace of those interactions. *)

From Stdlib Require Import ZArith NArith List Bool String Ascii QArith Lia.
Import ListNotations.
Local Open Scope Z_scope.

(** ** Python strings *)

Abbreviation pychar := N (only parsing).
Abbreviation pystr := (list N).

(** An ASCII literal as a Python string. *)
Definition lit (s : string) : pystr :=
  map N_of_ascii (list_ascii_of_string s).

(** The same, with every apostrophe of the literal standing for the double
    quote (code point 34), to write JSON texts legibly. *)
Definition qlit (s : string) : pystr :=
  map (fun c => if N.eqb c 39 then 34%N else c) (lit s).

Definition nl : pystr := [10%N].

Fixpoint pystr_eqb (a b : pystr) : bool :=
  match a, b with
  | [], [] => true
  | x :: a', y :: b' => N.eqb x y && pystr_eqb a' b'
  | _, _ => false
  end.

(** [s.startswith(sub)] *)
Fixpoint startswith (sub s : pystr) : bool :=
  match sub, s with
  | [], _ => true
  | x :: sub', y :: s' => N.eqb x y && startswith sub' s'
  | _ :: _, [] => false
  end.

(** [s.find(sub)]: the lowest index at which [sub] occurs, or -1. *)
Fixpoint find_from (sub s : pystr) (i : Z) : Z :=
  if startswith sub s then i
  else match s with
       | [] => -1
       | _ :: s' => find_from sub s' (i + 1)
       end.

Definition find (s sub : pystr) : Z := find_from sub s 0.

(** [s.rfind(sub)]: the highest index at which [sub] occurs, or -1. *)
Fixpoint rfind_from (sub s : pystr) (i : Z) : Z :=
  match s with
  | [] => if startswith sub [] then i else -1
  | _ :: s' =>
      let later := rfind_from sub s' (i + 1) in
      if 0 <=? later then later
      else if startswith sub s then i else -1
  end.

Definition rfind (s sub : pystr) : Z := rfind_from sub s 0.

(** Slice bounds as [PySlice_AdjustIndices] clamps them (step 1). *)
Definition slice_index (len i : Z) : Z :=
  if i <? 0 then Z.max 0 (i + len) else Z.min i len.

(** [s[start:stop]] *)
Definition slice (s : pystr) (start stop : Z) : pystr :=
  let len := Z.of_nat (List.length s) in
  let a := slice_index len start in
  let b := slice_index len stop in
  if a <? b then firstn (Z.to_nat (b - a)) (skipn (Z.to_nat a) s) else [].

(** [str.isspace] on one code point, the set [str.strip()] removes. *)
Definition isspace (c : pychar) : bool :=
  ((9 <=? c) && (c <=? 13) || (28 <=? c) && (c <=? 32)
   || (c =? 133) || (c =? 160) || (c =? 5760)
   || (8192 <=? c) && (c <=? 8202)
   || (c =? 8232) || (c =? 8233) || (c =? 8239) || (c =? 8287)
   || (c =? 12288))%N.

Fixpoint lstrip (s : pystr) : pystr :=
  match s with
  | c :: s' => if isspace c then lstrip s' else s
  | [] => []
  end.

Definition rstrip (s : pystr) : pystr := rev (lstrip (rev s)).

(** [s.strip()] *)
Definition strip (s : pystr) : pystr := rstrip (lstrip s).

(** [str(n)] for an [int]. *)
Definition digit_char (d : Z) : pychar := Z.to_N (48 + d).

Fixpoint digits_of (fuel : nat) (n : Z) (acc : pystr) : pystr :=
  match fuel with
  | O => acc
  | S fuel' =>
      let acc' := digit_char (n mod 10) :: acc in
      if n <? 10 then acc' else digits_of fuel' (n / 10) acc'
  end.

Definition str_of_int (n : Z) : pystr :=
  let m := Z.abs n in
  let ds := digits_of (S (Z.to_nat (Z.log2 m))) m [] in
  if n <? 0 then 45%N :: ds else ds.

(** ** Exceptions and results *)

Inductive py_exn :=
| ValueError (msg : pystr)
| RuntimeError (msg : pystr)
| TypeError (msg : pystr)
| IndexError (msg : pystr)
| AttributeError (msg : pystr)
| RecursionError
| JSONDecodeError (msg : pystr)
| ClientError (msg : pystr)     (* any [Exception] the API client raises *)
| KeyboardInterrupt.            (* a [BaseException] that is no [Exception] *)

(** [isinstance(e, Exception)]: what [except Exception] catches. *)
Definition is_Exception (e : py_exn) : bool :=
  match e with
  | KeyboardInterrupt => false
  | _ => true
  end.

Inductive py_result (A : Type) :=
| Ok (a : A)
| Raise (e : py_exn).
Arguments Ok {A} a.
Arguments Raise {A} e.

(** ** The [json] module of the standard library

    [json.loads] and [json.dumps] as the extractor uses them (default
    arguments, [indent=2] for [dumps]).  A float is kept as its lexeme, the
    code never computes with one.  A [dict] is the list of its items in
    insertion order.  Not covered: the interpreter's recursion limit and its
    limit on the number of digits of an [int] literal. *)

Module Json.

#[warnings="-register-all"]
Inductive json :=
| JNull
| JBool (b : bool)
| JInt (n : Z)
| JFloat (lexeme : pystr)
| JStr (s : pystr)
| JList (items : list json)
| JDict (items : list (pystr * json)).

(** [d[k] = v] on the item list of a [dict]. *)
Fixpoint dict_set (k : pystr) (v : json) (d : list (pystr * json))
  : list (pystr * json) :=
  match d with
  | [] => [(k, v)]
  | (k', v') :: d' =>
      if pystr_eqb k k' then (k, v) :: d' else (k', v') :: dict_set k v d'
  end.

(** [dict(pairs)] *)
Definition dict_of_pairs (pairs : list (pystr * json)) : list (pystr * json) :=
  fold_left (fun d kv => dict_set (fst kv) (snd kv) d) pairs [].

(** *** Decoding *)

Definition is_ws (c : pychar) : bool :=
  ((c =? 32) || (c =? 9) || (c =? 10) || (c =? 13))%N.

Fixpoint skip_ws (s : pystr) : pystr :=
  match s with
  | c :: s' => if is_ws c then skip_ws s' else s
  | [] => []
  end.

Definition is_digit (c : pychar) : bool := ((48 <=? c) && (c <=? 57))%N.

Definition hex_value (c : pychar) : option N :=
  if ((48 <=? c) && (c <=? 57))%N then Some (c - 48)%N
  else if ((97 <=? c) && (c <=? 102))%N then Some (c - 87)%N
  else if ((65 <=? c) && (c <=? 70))%N then Some (c - 55)%N
  else None.

Definition hex4 (a b c d : pychar) : option N :=
  match hex_value a, hex_value b, hex_value c, hex_value d with
  | Some x, Some y, Some z, Some w => Some (((x * 16 + y) * 16 + z) * 16 + w)%N
  | _, _, _, _ => None
  end.

(** The one-character escapes of [BACKSLASH]. *)
Definition simple_escape (c : pychar) : option pychar :=
  if (c =? 34)%N then Some 34%N            (* quotation mark *)
  else if (c =? 92)%N then Some 92%N       (* backslash *)
  else if (c =? 47)%N then Some 47%N       (* solidus *)
  else if (c =? 98)%N then Some 8%N        (* b: backspace *)
  else if (c =? 102)%N then Some 12%N      (* f: form feed *)
  else if (c =? 110)%N then Some 10%N      (* n: line feed *)
  else if (c =? 114)%N then Some 13%N      (* r: carriage return *)
  else if (c =? 116)%N then Some 9%N       (* t: tab *)
  else None.

Definition bad_escape {A} : py_result A :=
  Raise (JSONDecodeError (lit "Invalid \uXXXX escape")).

(** [scanstring(s, end, strict=True)]: [s] starts just after the opening
    quote; the result is the decoded string and the text after the closing
    quote. *)
Fixpoint scanstring (s : pystr) (acc : pystr) : py_result (pystr * pystr) :=
  match s with
  | [] => Raise (JSONDecodeError (lit "Unterminated string starting at"))
  | c :: r =>
      if (c =? 34)%N then Ok (rev acc, r)
      else if (c =? 92)%N then
        match r with
        | [] => Raise (JSONDecodeError (lit "Unterminated string starting at"))
        | e :: r1 =>
            if (e =? 117)%N then
              match r1 with
              | h1 :: h2 :: h3 :: h4 :: r2 =>
                  match hex4 h1 h2 h3 h4 with
                  | None => bad_escape
                  | Some uni =>
                      if ((55296 <=? uni) && (uni <=? 56319))%N then
                        match r2 with
                        | b :: u :: r3 =>
                            if ((b =? 92) && (u =? 117))%N then
                              match r3 with
                              | g1 :: g2 :: g3 :: g4 :: r4 =>
                                  match hex4 g1 g2 g3 g4 with
                                  | None => bad_escape
                                  | Some uni2 =>
                                      if ((56320 <=? uni2) && (uni2 <=? 57343))%N
                                      then scanstring r4
                                             ((65536 + ((uni - 55296) * 1024
                                                        + (uni2 - 56320)))%N :: acc)
                                      else scanstring r2 (uni :: acc)
                                  end
                              | _ => bad_escape
                              end
                            else scanstring r2 (uni :: acc)
                        | _ => scanstring r2 (uni :: acc)
                        end
                      else scanstring r2 (uni :: acc)
                  end
              | _ => bad_escape
              end
            else
              match simple_escape e with
              | Some x => scanstring r1 (x :: acc)
              | None => Raise (JSONDecodeError (lit "Invalid \escape"))
              end
        end
      else if (c <? 32)%N then
        Raise (JSONDecodeError (lit "Invalid control character at"))
      else scanstring r (c :: acc)
  end.

(** The longest prefix of digits, and the rest. *)
Fixpoint span_digits (s : pystr) : pystr * pystr :=
  match s with
  | c :: s' =>
      if is_digit c then let (ds, r) := span_digits s' in (c :: ds, r)
      else ([], s)
  | [] => ([], [])
  end.

Definition int_of_digits (ds : pystr) : Z :=
  fold_left (fun n c => 10 * n + (Z.of_N c - 48)) ds 0.

(** The integer part of [NUMBER_RE]: [0] or a digit string with no
    leading zero. *)
Definition match_int_part (s : pystr) : option (pystr * pystr) :=
  match s with
  | c :: s' =>
      if (c =? 48)%N then Some ([c], s')
      else if is_digit c then let (ds, r) := span_digits s' in Some (c :: ds, r)
      else None
  | [] => None
  end.

(** The optional fraction [\.\d+]. *)
Definition match_frac (s : pystr) : pystr * pystr :=
  match s with
  | c :: s' =>
      if (c =? 46)%N then
        match span_digits s' with
        | ([], _) => ([], s)
        | (ds, r) => (c :: ds, r)
        end
      else ([], s)
  | [] => ([], [])
  end.

(** The optional exponent [[eE][-+]?\d+]. *)
Definition match_exp (s : pystr) : pystr * pystr :=
  match s with
  | c :: s' =>
      if ((c =? 101) || (c =? 69))%N then
        let (sign, s'') :=
          match s' with
          | g :: t => if ((g =? 45) || (g =? 43))%N then ([g], t) else ([], s')
          | [] => ([], s')
          end in
        match span_digits s'' with
        | ([], _) => ([], s)
        | (ds, r) => (c :: sign ++ ds, r)
        end
      else ([], s)
  | [] => ([], [])
  end.

(** [match_number]: an [int] when there is neither fraction nor exponent,
    a [float] otherwise. *)
Definition match_number (s : pystr) : option (json * pystr) :=
  let (neg, s1) :=
    match s with
    | c :: s' => if (c =? 45)%N then (true, s') else (false, s)
    | [] => (false, s)
    end in
  match match_int_part s1 with
  | None => None
  | Some (ip, s2) =>
      let (fr, s3) := match_frac s2 in
      let (ex, s4) := match_exp s3 in
      match fr, ex with
      | [], [] =>
          let n := int_of_digits ip in
          Some (JInt (if neg then - n else n), s4)
      | _, _ =>
          Some (JFloat ((if neg then [45%N] else []) ++ ip ++ fr ++ ex), s4)
      end
  end.

Definition expecting_value {A} : py_result A :=
  Raise (JSONDecodeError (lit "Expecting value")).

Section Containers.
  (** [parse_object] and [parse_array] receive the scanner as [scan_once]. *)
Variable scan_once : pystr -> py_result (json * pystr).

  (** The [while True] loop of [JSONObject]; [s] starts just after the
      opening quote of a key. *)
Fixpoint object_loop (fuel : nat) (s : pystr) (pairs : list (pystr * json))
    : py_result (json * pystr) :=
    match fuel with
    | O => Raise RecursionError
    | S fuel' =>
        match scanstring s [] with
        | Raise e => Raise e
        | Ok (key, s1) =>
            match skip_ws s1 with
            | c :: s2 =>
                if (c =? 58)%N then
                  match scan_once (skip_ws s2) with
                  | Raise e => Raise e
                  | Ok (value, s3) =>
                      let pairs' := pairs ++ [(key, value)] in
                      match skip_ws s3 with
                      | d :: s4 =>
                          if (d =? 125)%N then
                            Ok (JDict (dict_of_pairs pairs'), s4)
                          else if (d =? 44)%N then
                            match skip_ws s4 with
                            | q :: s5 =>
                                if (q =? 34)%N then object_loop fuel' s5 pairs'
                                else Raise (JSONDecodeError (lit
                                  "Expecting property name enclosed in double quotes"))
                            | [] => Raise (JSONDecodeError (lit
                                  "Expecting property name enclosed in double quotes"))
                            end
                          else Raise (JSONDecodeError (lit "Expecting ',' delimiter"))
                      | [] => Raise (JSONDecodeError (lit "Expecting ',' delimiter"))
                      end
                  end
                else Raise (JSONDecodeError (lit "Expecting ':' delimiter"))
            | [] => Raise (JSONDecodeError (lit "Expecting ':' delimiter"))
            end
        end
    end.

  (** [JSONObject]; [s] starts just after the opening brace. *)
Definition parse_object (s : pystr) : py_result (json * pystr) :=
    match skip_ws s with
    | c :: s' =>
        if (c =? 34)%N then object_loop (List.length s) s' []
        else if (c =? 125)%N then Ok (JDict [], s')
        else Raise (JSONDecodeError (lit
               "Expecting property name enclosed in double quotes"))
    | [] => Raise (JSONDecodeError (lit
               "Expecting property name enclosed in double quotes"))
    end.

  (** The [while True] loop of [JSONArray]; [s] starts at a value. *)
Fixpoint array_loop (fuel : nat) (s : pystr) (values : list json)
    : py_result (json * pystr) :=
    match fuel with
    | O => Raise RecursionError
    | S fuel' =>
        match scan_once s with
        | Raise e => Raise e
        | Ok (value, s1) =>
            let values' := values ++ [value] in
            match skip_ws s1 with
            | c :: s2 =>
                if (c =? 93)%N then Ok (JList values', s2)
                else if (c =? 44)%N then array_loop fuel' (skip_ws s2) values'
                else Raise (JSONDecodeError (lit "Expecting ',' delimiter"))
            | [] => Raise (JSONDecodeError (lit "Expecting ',' delimiter"))
            end
        end
    end.

  (** [JSONArray]; [s] starts just after the opening bracket. *)
Definition parse_array (s : pystr) : py_result (json * pystr) :=
    match skip_ws s with
    | c :: s' =>
        if (c =? 93)%N then Ok (JList [], s')
        else array_loop (List.length s) (c :: s') []
    | [] => expecting_value
    end.
End Containers.

(** [scan_once]; [fuel] bounds the nesting depth. *)
Fixpoint scan_once (fuel : nat) (s : pystr) : py_result (json * pystr) :=
  match fuel with
  | O => Raise RecursionError
  | S fuel' =>
      match s with
      | [] => expecting_value
      | c :: r =>
          if (c =? 34)%N then
            match scanstring r [] with
            | Ok (str, r') => Ok (JStr str, r')
            | Raise e => Raise e
            end
          else if (c =? 123)%N then parse_object (scan_once fuel') r
          else if (c =? 91)%N then parse_array (scan_once fuel') r
          else if startswith (lit "null") s then Ok (JNull, skipn 4 s)
          else if startswith (lit "true") s then Ok (JBool true, skipn 4 s)
          else if startswith (lit "false") s then Ok (JBool false, skipn 5 s)
          else
            match match_number s with
            | Some res => Ok res
            | None =>
                if startswith (lit "NaN") s then Ok (JFloat (lit "NaN"), skipn 3 s)
                else if startswith (lit "Infinity") s
                then Ok (JFloat (lit "Infinity"), skipn 8 s)
                else if startswith (lit "-Infinity") s
                then Ok (JFloat (lit "-Infinity"), skipn 9 s)
                else expecting_value
            end
      end
  end.

(** [json.loads(s)] for a [str]. *)
Definition loads (s : pystr) : py_result json :=
  if startswith [65279%N] s
  then Raise (JSONDecodeError (lit "Unexpected UTF-8 BOM (decode using utf-8-sig)"))
  else
    match scan_once (S (List.length s)) (skip_ws s) with
    | Raise e => Raise e
    | Ok (obj, r) =>
        match skip_ws r with
        | [] => Ok obj
        | _ :: _ => Raise (JSONDecodeError (lit "Extra data"))
        end
    end.

(** *** Encoding *)

Definition hex_digit (d : N) : pychar :=
  if (d <? 10)%N then (48 + d)%N else (87 + d)%N.

(** ['\\u{0:04x}'.format(n)] for [n < 0x10000]. *)
Definition u_escape (n : N) : pystr :=
  [92%N; 117%N;
   hex_digit (n / 4096 mod 16); hex_digit (n / 256 mod 16);
   hex_digit (n / 16 mod 16); hex_digit (n mod 16)]%N.

(** The replacement of one character by [py_encode_basestring_ascii]. *)
Definition escape_char (c : pychar) : pystr :=
  if (c =? 34)%N then [92%N; 34%N]
  else if (c =? 92)%N then [92%N; 92%N]
  else if (c =? 10)%N then [92%N; 110%N]
  else if (c =? 13)%N then [92%N; 114%N]
  else if (c =? 9)%N then [92%N; 116%N]
  else if (c =? 12)%N then [92%N; 102%N]
  else if (c =? 8)%N then [92%N; 98%N]
  else if ((32 <=? c) && (c <=? 126))%N then [c]
  else if (c <? 65536)%N then u_escape c
  else
    let n := (c - 65536)%N in
    u_escape (N.lor 55296 (N.land (N.shiftr n 10) 1023))
    ++ u_escape (N.lor 56320 (N.land n 1023)).

(** [encode_basestring_ascii(s)] ([ensure_ascii=True]). *)
Definition encode_basestring_ascii (s : pystr) : pystr :=
  [34%N] ++ flat_map escape_char s ++ [34%N].

(** ['\n' + ' ' * (indent * level)] *)
Definition newline_indent (indent level : nat) : pystr :=
  10%N :: repeat 32%N (indent * level).

(** [_iterencode(o, level)] of [json.dumps(o, indent=indent)]: the item
    separator is [','] followed by the newline and the indentation, the key
    separator is [': ']. *)
Fixpoint iterencode (indent level : nat) (o : json) : pystr :=
  match o with
  | JNull => lit "null"
  | JBool true => lit "true"
  | JBool false => lit "false"
  | JInt n => str_of_int n
  | JFloat lexeme => lexeme
  | JStr s => encode_basestring_ascii s
  | JList [] => lit "[]"
  | JList (x :: xs) =>
      lit "[" ++ newline_indent indent (S level)
      ++ iterencode indent (S level) x
      ++ (fix rest (l : list json) : pystr :=
            match l with
            | [] => []
            | y :: l' =>
                lit "," ++ newline_indent indent (S level)
                ++ iterencode indent (S level) y ++ rest l'
            end) xs
      ++ newline_indent indent level ++ lit "]"
  | JDict [] => lit "{}"
  | JDict ((k, x) :: xs) =>
      lit "{" ++ newline_indent indent (S level)
      ++ encode_basestring_ascii k ++ lit ": " ++ iterencode indent (S level) x
      ++ (fix rest (l : list (pystr * json)) : pystr :=
            match l with
            | [] => []
            | (k', y) :: l' =>
                lit "," ++ newline_indent indent (S level)
                ++ encode_basestring_ascii k' ++ lit ": "
                ++ iterencode indent (S level) y ++ rest l'
            end) xs
      ++ newline_indent indent level ++ lit "}"
  end.

(** [json.dumps(obj, indent=indent)] *)
Definition dumps (obj : json) (indent : nat) : pystr :=
  iterencode indent 0 obj.

End Json.
Export Json.

(** ** Effects: a trace of interactions and Python's exceptions *)

Definition M (E A : Type) : Type := list E -> py_result A * list E.

Definition ret {E A} (a : A) : M E A := fun tr => (Ok a, tr).

Definition bind {E A B} (m : M E A) (k : A -> M E B) : M E B :=
  fun tr =>
    match m tr with
    | (Ok a, tr') => k a tr'
    | (Raise e, tr') => (Raise e, tr')
    end.

Declare Scope py_scope.
Delimit Scope py_scope with py.
Notation "x <- m ;; k" := (bind m (fun x => k))
  (at level 61, m at next level, right associativity) : py_scope.
Notation "m ;;; k" := (bind m (fun _ => k))
  (at level 61, right associativity) : py_scope.
Local Open Scope py_scope.

(** [raise e] *)
Definition raise {E A} (e : py_exn) : M E A := fun tr => (Raise e, tr).

(** A pure call that returns or raises. *)
Definition lift {E A} (r : py_result A) : M E A := fun tr => (r, tr).

(** One interaction, appended to the trace. *)
Definition emit {E} (ev : E) : M E unit := fun tr => (Ok tt, tr ++ [ev]).

(** [try: body  except Exception as exc: handler(exc)] *)
Definition try_except_Exception {E A}
  (body : M E A) (handler : py_exn -> M E A) : M E A :=
  fun tr =>
    match body tr with
    | (Raise exc, tr') =>
        if is_Exception exc then handler exc tr' else (Raise exc, tr')
    | (Ok a, tr') => (Ok a, tr')
    end.

(** [try: body  finally: cleanup], with a cleanup that does not raise. *)
Definition try_finally {E A} (body : M E A) (cleanup : M E unit) : M E A :=
  fun tr =>
    let (r, tr') := body tr in
    (r, snd (cleanup tr')).

(** [list(range(start, stop))] *)
Definition py_range (start stop : Z) : list Z :=
  map (fun i => start + Z.of_nat i) (seq 0 (Z.to_nat (stop - start))).

(** [sep.join(parts)] *)
Fixpoint join (sep : pystr) (parts : list pystr) : pystr :=
  match parts with
  | [] => []
  | [p] => p
  | p :: ps => p ++ sep ++ join sep ps
  end.

(** ** extractors/json_extractor.py *)

(** *** The chat-completion client *)

(** The keyword arguments of [client.chat.completions.create]; a message is
    its role and its content; a float is the rational it denotes. *)
Record request := {
  model : pystr;
  messages : list (pystr * pystr);
  max_tokens : Z;
  temperature : Q;
  top_p : Q
}.

(** A completion, as far as the extractor reads it: for each choice,
    [choice.message.content], which may be [None]. *)
Record completion := { choices : list (option pystr) }.

(** What the extractor does to the outside world. *)
Inductive event :=
| ChatCompletion (req : request)               (* one call of the model *)
| LogException (attempt : Z) (exc : py_exn).   (* one [logger.exception] *)

(** A client answers a request from the requests it has served so far: it
    returns a completion or raises. *)
Definition client := list request -> request -> py_result completion.

Fixpoint requests_of (tr : list event) : list request :=
  match tr with
  | [] => []
  | ChatCompletion req :: tr' => req :: requests_of tr'
  | LogException _ _ :: tr' => requests_of tr'
  end.

(** [client.chat.completions.create(...)] *)
Definition create (c : client) (req : request) : M event completion :=
  fun tr => (c (requests_of tr) req, tr ++ [ChatCompletion req]).

(** [logger.exception("Attempt %s failed: %s", attempt, exc)] *)
Definition logger_exception (attempt : Z) (exc : py_exn) : M event unit :=
  emit (LogException attempt exc).

Module JSONExtractor.

(** The instance attributes set by [__init__]. *)
Record t := {
  _client : client;
  _deployment : pystr;
  _temperature : Q;
  _max_retries : Z;
  _max_tokens : Z
}.

(** [_SCHEMA]; code point 8209 is the non-breaking hyphen of the source. *)
Definition _SCHEMA : json :=
  JDict [
    (lit "year",
     JStr (lit "integer " ++ [8209%N] ++ lit " 4" ++ [8209%N]
           ++ lit "digit year of the fact sheet"));
    (lit "total_incidents",
     JStr (lit "integer total number of incidents reported"));
    (lit "nuclear_material_incidents",
     JStr (lit "integer incidents involving nuclear material"));
    (lit "radioactive_material_incidents",
     JStr (lit "integer incidents involving other radioactive material"));
    (lit "incidents_by_material",
     JDict [ (lit "uranium", JStr (lit "integer"));
             (lit "plutonium", JStr (lit "integer"));
             (lit "medical_isotopes", JStr (lit "integer")) ]);
    (lit "incidents_by_group",
     JDict [ (lit "theft_or_loss", JStr (lit "integer"));
             (lit "unauthorized_activities", JStr (lit "integer"));
             (lit "other", JStr (lit "integer")) ])
  ].

(** [__init__(self, client, deployment, *, temperature=0.0, max_retries=3,
    max_tokens=1024)]; [None] is a keyword argument left out. *)
Definition __init__ (client_ : client) (deployment : pystr)
  (temperature_ : option Q) (max_retries : option Z) (max_tokens_ : option Z)
  : t :=
  {| _client := client_;
     _deployment := deployment;
     _temperature := match temperature_ with Some x => x | None => 0%Q end;
     _max_retries := match max_retries with Some n => n | None => 3 end;
     _max_tokens := match max_tokens_ with Some n => n | None => 1024 end |}.

(** The fixed instruction that opens the prompt; code point 8212 is the em
    dash of the source. *)
Definition instruction : pystr :=
  lit "The following is an ITDB fact sheet. Parse its contents and output "
  ++ lit "**only** a JSON object that matches this schema exactly"
  ++ [8212%N] ++ lit "no additional "
  ++ lit "keys and no prose:" ++ nl ++ nl.

(** [_build_prompt] *)
Definition _build_prompt (raw_text : pystr) : pystr :=
  let schema_str := dumps _SCHEMA 2 in
  instruction
  ++ (schema_str ++ nl ++ nl)
  ++ (lit "--- BEGIN FACT SHEET ---" ++ nl)
  ++ (raw_text ++ nl)
  ++ lit "--- END FACT SHEET ---".

(** [_extract_json_block] *)
Definition _extract_json_block (text : pystr) : py_result pystr :=
  let start := find text (lit "{") in
  let end_ := rfind text (lit "}") in
  if (start =? -1) || (end_ =? -1)
  then Raise (ValueError (lit "No JSON object found in the model response"))
  else Ok (slice text start (end_ + 1)).

(** The system message of every request. *)
Definition system_content : pystr :=
  lit "You are a data" ++ [8209%N] ++ lit "extraction assistant. "
  ++ lit "Respond **only** with a JSON object matching the schema provided. "
  ++ lit "Do not output any explanatory text.".

(** The keyword arguments of the call in [extract]. *)
Definition request_of (self : t) (prompt : pystr) : request :=
  {| model := _deployment self;
     messages := [ (lit "system", system_content); (lit "user", prompt) ];
     max_tokens := _max_tokens self;
     temperature := _temperature self;
     top_p := 1%Q |}.

(** [response.choices[0].message.content.strip()] *)
Definition response_content (response : completion) : py_result pystr :=
  match choices response with
  | [] => Raise (IndexError (lit "list index out of range"))
  | None :: _ =>
      Raise (AttributeError (lit "'NoneType' object has no attribute 'strip'"))
  | Some content :: _ => Ok (strip content)
  end.

(** Lines 108 to 110: what one attempt makes of the response it got. *)
Definition parse_response (response : completion) : py_result json :=
  match response_content response with
  | Raise e => Raise e
  | Ok content =>
      match _extract_json_block content with
      | Raise e => Raise e
      | Ok json_str => loads json_str
      end
  end.

(** The body of the [try] of one attempt. *)
Definition attempt_body (self : t) (prompt : pystr) : M event json :=
  response <- create (_client self) (request_of self prompt) ;;
  lift (parse_response response).

(** The [for] loop of [extract] over the attempts still to make, and the
    [raise] that follows it.  An attempt yields [Some record] when its
    [try] body reaches [return], [None] when its handler has logged an
    exception. *)
Fixpoint extract_loop (self : t) (prompt : pystr) (attempts : list Z)
  : M event json :=
  match attempts with
  | [] =>
      raise (RuntimeError (lit "Failed to extract JSON after "
                           ++ str_of_int (_max_retries self)
                           ++ lit " attempts"))
  | attempt :: rest =>
      returned <-
        try_except_Exception
          (record <- attempt_body self prompt ;; ret (Some record))
          (fun exc => logger_exception attempt exc ;;; ret None) ;;
      match returned with
      | Some record => ret record
      | None => extract_loop self prompt rest
      end
  end.

(** [extract] *)
Definition extract (self : t) (raw_text : pystr) : M event json :=
  let prompt := _build_prompt raw_text in
  extract_loop self prompt (py_range 1 (_max_retries self + 1)).

End JSONExtractor.

(** The module-level [extract_json(raw_text, client, deployment, *,
    temperature=0.0)]. *)
Definition extract_json (raw_text : pystr) (client_ : client)
  (deployment : pystr) (temperature_ : option Q) : M event json :=
  let temperature_ := match temperature_ with Some x => x | None => 0%Q end in
  let extractor :=
    JSONExtractor.__init__ client_ deployment (Some temperature_) None None in
  JSONExtractor.extract extractor raw_text.

(** *** Vocabulary for the runs of [extract] *)

(** The error of the locator. *)
Definition no_json_object : py_exn :=
  ValueError (lit "No JSON object found in the model response").

(** The error of [json.loads] on a text that starts with no value. *)
Definition expecting_value_error : py_exn :=
  JSONDecodeError (lit "Expecting value").

(** The terminal error of [extract]. *)
Definition exhausted (self : JSONExtractor.t) : py_exn :=
  RuntimeError (lit "Failed to extract JSON after "
                ++ str_of_int (JSONExtractor._max_retries self)
                ++ lit " attempts").

(** The trace of consecutive failed attempts, numbered from [attempt]: each
    is one call of the model followed by one log entry. *)
Fixpoint failed_trace (req : request) (attempt : Z) (es : list py_exn)
  : list event :=
  match es with
  | [] => []
  | e :: es' =>
      ChatCompletion req :: LogException attempt e
      :: failed_trace req (attempt + 1) es'
  end.

(** The attempt numbers [s + 1, ..., s + n] of the loop. *)
Definition attempts_from (s n : nat) : list Z :=
  map (fun i => 1 + Z.of_nat i) (seq s n).

Section Attempts.
Import JSONExtractor.
Variables (self : JSONExtractor.t) (prompt : pystr).

(** The outcome of the [try] body of the attempt that follows [j] earlier
    attempts of a call of [extract] started at trace [tr]: the client has
    then served the requests of [tr] and [j] times the request of this
    call. *)
Definition attempt_outcome (tr : list event) (j : nat) : py_result json :=
  let req := request_of self prompt in
  match _client self (requests_of tr ++ repeat req j) req with
  | Ok response => parse_response response
  | Raise e => Raise e
  end.

(** The attempt fails: its body raises an exception that the handler
    catches. *)
Definition attempt_fails (tr : list event) (j : nat) : Prop :=
  exists e, attempt_outcome tr j = Raise e /\ is_Exception e = true.

(** The exception the attempt raises, if it raises one. *)
Definition raised (tr : list event) (j : nat) : list py_exn :=
  match attempt_outcome tr j with
  | Raise e => [e]
  | Ok _ => []
  end.

(** The exceptions raised by the first [n] attempts, in order. *)
Definition failures (tr : list event) (n : nat) : list py_exn :=
  flat_map (raised tr) (seq 0 n).

(** The trace reached after the failed attempts [es] of a call started at
    [tr0]. *)
Definition after (tr0 : list event) (es : list py_exn) : list event :=
  tr0 ++ failed_trace (request_of self prompt) 1 es.
End Attempts.

(** A client that plays a script: its k-th call, whatever the request,
    yields the k-th entry, and raises once the script is over. *)
Definition scripted_client (script : list (py_result completion)) : client :=
  fun served _ =>
    nth (List.length served) script
        (Raise (ClientError (lit "no response left"))).

(** A completion with one choice of the given content. *)
Definition reply (content : pystr) : py_result completion :=
  Ok {| choices := [Some content] |}.

(** The keys of a [dict], in order; of anything else, none. *)
Definition keys (v : json) : list pystr :=
  match v with
  | JDict items => map fst items
  | _ => []
  end.

(** Whether a [try] body ended in an exception that [except Exception]
    catches. *)
Definition caught {A} (r : py_result A) : bool :=
  match r with
  | Raise e => is_Exception e
  | Ok _ => false
  end.

(** The number of calls of the model in a trace. *)
Definition calls (tr : list event) : nat := List.length (requests_of tr).

(** *** Concrete runs *)

(** An extractor with the default settings over a scripted client. *)
Definition scripted_extractor (script : list (py_result completion))
  : JSONExtractor.t :=
  JSONExtractor.__init__ (scripted_client script) (lit "gpt-4o-mini")
                         None None None.

(** Three answers none of which can be used: prose without braces, a
    transport fault, braces around something that is not JSON. *)
Definition script_all_invalid : list (py_result completion) :=
  [ reply (lit "I could not find any incident data.");
    Raise (ClientError (lit "Request timed out."));
    reply (lit "{year: 2020}") ].

(** Two invalid answers, then a valid one. *)
Definition script_third_valid : list (py_result completion) :=
  [ reply (lit "I could not find any incident data.");
    reply (lit "{year: 2020}");
    reply (qlit "Here it is: {'year': 2020, 'total_incidents': 7} Done.") ].

Definition third_record : json :=
  JDict [ (lit "year", JInt 2020); (lit "total_incidents", JInt 7) ].

(** A well-formed JSON object that has none of the schema's shape: an
    unknown key, a missing key, a string where an integer is asked for. *)
Definition off_schema_content : pystr :=
  qlit "Sure! {'foo': 1, 'year': 'unknown'}".

Definition off_schema_record : json :=
  JDict [ (lit "foo", JInt 1); (lit "year", JStr (lit "unknown")) ].

Definition sample_text : pystr := lit "ITDB 2020 fact sheet".

(** The text that [json.dumps(_SCHEMA, indent=2)] yields, written out. *)
Definition schema_text : pystr :=
  qlit "{
  'year': 'integer \u2011 4\u2011digit year of the fact sheet',
  'total_incidents': 'integer total number of incidents reported',
  'nuclear_material_incidents': 'integer incidents involving nuclear material',
  'radioactive_material_incidents': 'integer incidents involving other radioactive material',
  'incidents_by_material': {
    'uranium': 'integer',
    'plutonium': 'integer',
    'medical_isotopes': 'integer'
  },
  'incidents_by_group': {
    'theft_or_loss': 'integer',
    'unauthorized_activities': 'integer',
    'other': 'integer'
  }
}".

(** The two messages of a request that carries [prompt]. *)
Definition messages_with (prompt : pystr) : list (pystr * pystr) :=
  [ (lit "system", JSONExtractor.system_content); (lit "user", prompt) ].

(** ** extractors/pdf_parser.py *)

Module PdfParser.

Definition bytes := list N.

(** A PyMuPDF document, as far as the code reads it: for each page in
    document order, what [page.get_text()] returns or raises. *)
Record fitz_document := { pages : list (py_result pystr) }.

(** langchain's [Document(page_content=txt)]. *)
Record Document := { page_content : pystr }.

(** What the module does to the outside world. *)
Inductive event :=
| FitzOpen (stream : bytes) (filetype : pystr)   (* [fitz.open] *)
| DocEnter                                       (* [doc.__enter__] *)
| GetText (page : nat)                           (* [page.get_text()] *)
| DocExit                                        (* [doc.__exit__]: the release *)
| SplitterInit (chunk_size chunk_overlap : Z)    (* the splitter's constructor *)
| SplitText (text : option pystr)                (* [splitter.split_text] *)
| FaissFromDocuments (docs : list Document)      (* [FAISS.from_documents] *)
| EmbedDocuments (texts : list pystr).           (* [embed_documents] *)

(** The imported libraries and the embedding client: what each call returns
    or raises.  A value that may be [None] is an [option]. *)
Record libraries := {
  fitz_open : bytes -> py_result fitz_document;
  splitter : Type;
  RecursiveCharacterTextSplitter : Z -> Z -> py_result splitter;
  split_text : splitter -> option pystr -> py_result (list pystr);
  FAISS : Type;
  vector : Type;
  FAISS_from_documents : list Document -> py_result FAISS;
  embed_documents : list pystr -> py_result (list vector)
}.

(** [(page.get_text() for page in doc)], consumed in document order. *)
Fixpoint page_texts (i : nat) (ps : list (py_result pystr))
  : M event (list pystr) :=
  match ps with
  | [] => ret []
  | p :: ps' =>
      text <- (emit (GetText i) ;;; lift p) ;;
      texts <- page_texts (S i) ps' ;;
      ret (text :: texts)
  end.

(** Lines 59 and 60: the [with] statement.  In the file it stands at module
    level, after the [def] of [extract_text_from_pdf] and not inside it, and
    so does the [return full_text] of line 61.  The result is the value
    bound to [full_text]. *)
Definition with_fitz_open (L : libraries) (pdf_bytes : bytes)
  : M event pystr :=
  doc <- (emit (FitzOpen pdf_bytes (lit "pdf")) ;;; lift (fitz_open L pdf_bytes)) ;;
  emit DocEnter ;;;
  try_finally
    (texts <- page_texts 0 (pages doc) ;; ret (join nl texts))
    (emit DocExit).

(** [extract_text_from_pdf] as the file has it: the docstring is the whole
    body of the [def] (lines 40 to 57), so a call returns [None] and touches
    no document.  (The [return] of line 61, outside any function, makes the
    compiler refuse the module as a whole.) *)
Definition extract_text_from_pdf (pdf_bytes : bytes)
  : M event (option pystr) :=
  ret None.

(** [parse_and_embed].  Line 101 calls the text extractor by its module-level
    name; it is the argument [extract_text] here, so that what follows holds
    for whatever that name is bound to. *)
Definition parse_and_embed (L : libraries)
  (extract_text : bytes -> M event (option pystr))
  (pdf_bytes : bytes) (chunk_size chunk_overlap : Z)
  (return_vectorstore : bool)
  : M event (FAISS L + list (Document * vector L)) :=
  raw_text <- extract_text pdf_bytes ;;
  splitter_ <- (emit (SplitterInit chunk_size chunk_overlap) ;;;
                lift (RecursiveCharacterTextSplitter L chunk_size chunk_overlap)) ;;
  chunks <- (emit (SplitText raw_text) ;;;
             lift (split_text L splitter_ raw_text)) ;;
  let docs := map (fun txt => {| page_content := txt |}) chunks in
  if return_vectorstore then
    store <- (emit (FaissFromDocuments docs) ;;;
              lift (FAISS_from_documents L docs)) ;;
    ret (inl store)
  else
    vectors <- (emit (EmbedDocuments (map page_content docs)) ;;;
                lift (embed_documents L (map page_content docs))) ;;
    ret (inr (combine docs vectors)).

(** Stand-ins for the libraries, in the manner of the repository's tests:
    [fitz.open] yields the given pages; the splitter's constructor refuses a
    chunk overlap larger than the chunk size (langchain's check) and nothing
    else; [split_text] refuses [None], returns a non-empty text as one chunk
    and the empty text as no chunk; embedding yields one unit vector per
    text. *)
Definition stub_libraries (doc_pages : list (py_result pystr)) : libraries :=
  {| fitz_open := fun _ => Ok {| pages := doc_pages |};
     splitter := Z * Z;
     RecursiveCharacterTextSplitter := fun chunk_size chunk_overlap =>
       if chunk_size <? chunk_overlap
       then Raise (ValueError
              (lit "Got a larger chunk overlap (" ++ str_of_int chunk_overlap
               ++ lit ") than chunk size (" ++ str_of_int chunk_size
               ++ lit "), should be smaller."))
       else Ok (chunk_size, chunk_overlap);
     split_text := fun _ text =>
       match text with
       | None => Raise (TypeError (lit "expected string or bytes-like object"))
       | Some [] => Ok []
       | Some t => Ok [t]
       end;
     FAISS := list Document;
     vector := unit;
     FAISS_from_documents := fun docs => Ok docs;
     embed_documents := fun texts => Ok (map (fun _ => tt) texts) |}.

(** The text extractor that the docstring of [extract_text_from_pdf]
    describes: the [with] statement of lines 59 and 60 as the body of the
    function, its value returned. *)
Definition read_text (L : libraries) (pdf_bytes : bytes)
  : M event (option pystr) :=
  full_text <- with_fitz_open L pdf_bytes ;;
  ret (Some full_text).

(** The document of the repository's test: two pages, [a] and [b]. *)
Definition two_pages : list (py_result pystr) := [Ok (lit "a"); Ok (lit "b")].

Definition pdf_header : bytes := lit "%PDF".

(** The interactions of reading the two pages. *)
Definition two_pages_read : list event :=
  [FitzOpen pdf_header (lit "pdf"); DocEnter; GetText 0; GetText 1; DocExit].

(** The pipeline fails on a bad configuration before anything else happens:
    it raises and leaves the trace as it found it. *)
Definition fails_fast (L : libraries)
  (extract_text : bytes -> M event (option pystr)) : Prop :=
  forall pdf_bytes chunk_size chunk_overlap return_vectorstore tr,
    chunk_size <= chunk_overlap ->
    exists e,
      parse_and_embed L extract_text pdf_bytes chunk_size chunk_overlap
                      return_vectorstore tr
      = (Raise e, tr).

End PdfParser.

(** ** Further vocabulary *)

(** The traces of the extractor. *)
Abbreviation trace := (list event).

(** A text with neither brace. *)
Definition brace_free (s : pystr) : Prop := ~ In 123%N s /\ ~ In 125%N s.

(** The number of log entries in a trace. *)
Definition logs (tr : list event) : nat :=
  List.length (filter (fun ev => match ev with
                                 | LogException _ _ => true
                                 | ChatCompletion _ => false
                                 end) tr).

(** Whether a decoded value is a [dict]. *)
Definition is_dict (v : json) : bool :=
  match v with
  | JDict _ => true
  | _ => false
  end.

(** The number of releases of a document in a trace of the PDF module. *)
Definition releases (tr : list PdfParser.event) : nat :=
  List.length (filter (fun ev => match ev with
                                 | PdfParser.DocExit => true
                                 | _ => false
                                 end) tr).

(** The embedding interaction of [parse_and_embed] in either mode. *)
Definition embedding_event (return_vectorstore : bool) (chunks : list pystr)
  : PdfParser.event :=
  if return_vectorstore
  then PdfParser.FaissFromDocuments
         (map (fun txt => {| PdfParser.page_content := txt |}) chunks)
  else PdfParser.EmbedDocuments chunks.

(** A document whose second page cannot be read. *)
Definition broken_pages : list (py_result pystr) :=
  [ Ok (lit "a"); Raise (RuntimeError (lit "cannot read page")); Ok (lit "c") ].

(** [[Document(page_content=txt) for txt in chunks]] *)
Definition documents_of (chunks : list pystr) : list PdfParser.Document :=
  map (fun txt => {| PdfParser.page_content := txt |}) chunks.

(** * Properties *)

Import JSONExtractor.

(** ** Searching a string for one character *)

Lemma startswith_single (c : pychar) (s : pystr) :
  startswith [c] s = match s with x :: _ => N.eqb c x | [] => false end.
Proof. destruct s; simpl; [reflexivity | apply andb_true_r]. Qed.

Lemma find_from_absent (c : pychar) (s : pystr) (i : Z) :
  ~ In c s -> find_from [c] s i = -1.
Proof.
  revert i. induction s as [|x s IH]; intros i H.
  - reflexivity.
  - cbn [find_from]. rewrite startswith_single.
    destruct (N.eqb_spec c x) as [->|_].
    + exfalso. apply H. now left.
    + apply IH. intros Hin. apply H. now right.
Qed.

Lemma find_from_first (c : pychar) (p r : pystr) (i : Z) :
  ~ In c p -> find_from [c] (p ++ c :: r) i = i + Z.of_nat (List.length p).
Proof.
  revert i. induction p as [|x p IH]; intros i H.
  - cbn [app find_from]. rewrite startswith_single, N.eqb_refl. simpl. lia.
  - cbn [app find_from]. rewrite startswith_single.
    destruct (N.eqb_spec c x) as [->|_].
    + exfalso. apply H. now left.
    + rewrite IH by (intros Hin; apply H; now right).
      cbn [List.length]. lia.
Qed.

Lemma rfind_from_absent (c : pychar) (s : pystr) (i : Z) :
  ~ In c s -> rfind_from [c] s i = -1.
Proof.
  revert i. induction s as [|x s IH]; intros i H.
  - reflexivity.
  - cbn [rfind_from]. rewrite IH by (intros Hin; apply H; now right).
    simpl (0 <=? -1). cbv iota. rewrite startswith_single.
    destruct (N.eqb_spec c x) as [->|_]; [|reflexivity].
    exfalso. apply H. now left.
Qed.

Lemma rfind_from_last (c : pychar) (p r : pystr) (i : Z) :
  0 <= i -> ~ In c r ->
  rfind_from [c] (p ++ c :: r) i = i + Z.of_nat (List.length p).
Proof.
  revert i. induction p as [|x p IH]; intros i Hi H.
  - cbn [app rfind_from]. rewrite rfind_from_absent by assumption.
    simpl (0 <=? -1). cbv iota.
    rewrite startswith_single, N.eqb_refl. simpl. lia.
  - cbn [app rfind_from]. rewrite IH by (assumption || lia).
    cbn [List.length].
    destruct (Z.leb_spec 0 (i + 1 + Z.of_nat (List.length p))); lia.
Qed.

Lemma find_absent (c : pychar) (s : pystr) : ~ In c s -> find s [c] = -1.
Proof. apply find_from_absent. Qed.

Lemma rfind_absent (c : pychar) (s : pystr) : ~ In c s -> rfind s [c] = -1.
Proof. apply rfind_from_absent. Qed.

(** ** [str] of an [int] *)

Lemma digits_of_value (fuel : nat) (n : Z) (acc : pystr) :
  0 <= n < 10 ^ Z.of_nat fuel ->
  fold_left (fun m c => 10 * m + (Z.of_N c - 48)) (digits_of fuel n acc) 0
  = fold_left (fun m c => 10 * m + (Z.of_N c - 48)) acc n.
Proof.
  revert n acc. induction fuel as [|fuel IH]; intros n acc Hn.
  - cbn in *. replace n with 0 by lia. reflexivity.
  - cbn [digits_of]. destruct (Z.ltb_spec n 10) as [Hlt|Hge].
    + cbn [fold_left]. f_equal. unfold digit_char.
      rewrite Z.mod_small by lia. rewrite Z2N.id by lia. lia.
    + rewrite IH.
      * cbn [fold_left]. f_equal. unfold digit_char.
        pose proof (Z.mod_pos_bound n 10 ltac:(lia)).
        rewrite Z2N.id by lia.
        pose proof (Z.div_mod n 10 ltac:(lia)). lia.
      * rewrite Nat2Z.inj_succ, Z.pow_succ_r in Hn by lia.
        split; [apply Z.div_pos; lia|].
        apply Z.div_lt_upper_bound; lia.
Qed.

(** The decimal text of a non-negative [int] reads back as that [int]. *)
Lemma str_of_int_decodes (n : Z) :
  0 <= n -> int_of_digits (str_of_int n) = n.
Proof.
  intros Hn. unfold str_of_int, int_of_digits.
  destruct (Z.ltb_spec n 0); [lia|]. rewrite Z.abs_eq by lia.
  rewrite digits_of_value; [reflexivity|].
  split; [lia|].
  rewrite Nat2Z.inj_succ, Z2Nat.id by apply Z.log2_nonneg.
  destruct (Z.eq_dec n 0) as [->|Hz]; [reflexivity|].
  apply Z.lt_le_trans with (2 ^ Z.succ (Z.log2 n)).
  - apply Z.log2_spec. lia.
  - apply Z.pow_le_mono_l. pose proof (Z.log2_nonneg n). lia.
Qed.

(** ** The JSON-block locator *)

Lemma extract_json_block_no_brace (text : pystr) :
  ~ In 123%N text \/ ~ In 125%N text ->
  _extract_json_block text = Raise no_json_object.
Proof.
  intros [H|H]; unfold _extract_json_block.
  - change (lit "{") with [123%N]. rewrite (find_absent _ _ H). reflexivity.
  - change (lit "}") with [125%N]. rewrite (rfind_absent _ _ H).
    rewrite orb_true_r. reflexivity.
Qed.

Lemma slice_empty (s : pystr) (start stop : Z) :
  0 <= stop <= start -> slice s start stop = [].
Proof.
  intros H. unfold slice, slice_index.
  destruct (Z.ltb_spec start 0), (Z.ltb_spec stop 0); try lia.
  destruct (Z.ltb_spec (Z.min start (Z.of_nat (List.length s)))
                       (Z.min stop (Z.of_nat (List.length s)))); [lia | reflexivity].
Qed.

Lemma extract_json_block_reversed (a b c : pystr) :
  ~ In 123%N a -> ~ In 123%N b -> ~ In 125%N b -> ~ In 125%N c ->
  _extract_json_block (a ++ 125%N :: b ++ 123%N :: c) = Ok [].
Proof.
  intros Ha Hb Hb' Hc. unfold _extract_json_block.
  change (lit "{") with [123%N]. change (lit "}") with [125%N].
  assert (F : find (a ++ 125%N :: b ++ 123%N :: c) [123%N]
              = Z.of_nat (List.length a) + 1 + Z.of_nat (List.length b)).
  { unfold find.
    replace (a ++ 125%N :: b ++ 123%N :: c) with ((a ++ 125%N :: b) ++ 123%N :: c)
      by (rewrite <- app_assoc; reflexivity).
    rewrite find_from_first.
    - rewrite length_app. cbn [List.length]. lia.
    - intros Hin. apply in_app_or in Hin.
      destruct Hin as [Hin|[Hin|Hin]]; [tauto | discriminate | tauto]. }
  assert (R : rfind (a ++ 125%N :: b ++ 123%N :: c) [125%N]
              = Z.of_nat (List.length a)).
  { unfold rfind. rewrite rfind_from_last; [lia | lia |].
    intros Hin. apply in_app_or in Hin.
    destruct Hin as [Hin|[Hin|Hin]]; [tauto | discriminate | tauto]. }
  rewrite F, R.
  destruct (Z.eqb_spec (Z.of_nat (List.length a) + 1 + Z.of_nat (List.length b)) (-1));
    [lia|].
  destruct (Z.eqb_spec (Z.of_nat (List.length a)) (-1)); [lia|].
  cbn [orb]. rewrite slice_empty by lia. reflexivity.
Qed.

(** ** The retry loop *)

Lemma requests_of_app (a b : list event) :
  requests_of (a ++ b) = requests_of a ++ requests_of b.
Proof.
  induction a as [|[req|n e] a IH]; simpl; [reflexivity | f_equal; exact IH | exact IH].
Qed.

Lemma requests_of_failed_trace (req : request) (es : list py_exn) (a : Z) :
  requests_of (failed_trace req a es) = repeat req (List.length es).
Proof.
  revert a. induction es as [|e es IH]; intros a; simpl; [reflexivity|].
  f_equal. apply IH.
Qed.

Lemma failed_trace_app (req : request) (es1 es2 : list py_exn) (a : Z) :
  failed_trace req a (es1 ++ es2)
  = failed_trace req a es1
    ++ failed_trace req (a + Z.of_nat (List.length es1)) es2.
Proof.
  revert a. induction es1 as [|e es1 IH]; intros a.
  - simpl. now rewrite Z.add_0_r.
  - cbn [app failed_trace List.length]. rewrite IH.
    replace (a + Z.of_nat (S (List.length es1)))
      with (a + 1 + Z.of_nat (List.length es1)) by lia.
    reflexivity.
Qed.

Section Loop.
Variables (self : JSONExtractor.t) (prompt : pystr).

Lemma attempt_body_run (tr0 : list event) (es : list py_exn) :
  attempt_body self prompt (after self prompt tr0 es)
  = (attempt_outcome self prompt tr0 (List.length es),
     after self prompt tr0 es ++ [ChatCompletion (request_of self prompt)]).
Proof.
  unfold attempt_body, bind, create, lift, attempt_outcome, after.
  rewrite requests_of_app, requests_of_failed_trace.
  destruct (_client self _ (request_of self prompt)); reflexivity.
Qed.

Lemma loop_step_returns (tr0 : list event) (es : list py_exn)
      (attempt : Z) (rest : list Z) (v : json) :
  attempt_outcome self prompt tr0 (List.length es) = Ok v ->
  extract_loop self prompt (attempt :: rest) (after self prompt tr0 es)
  = (Ok v, after self prompt tr0 es ++ [ChatCompletion (request_of self prompt)]).
Proof.
  intros H. cbn [extract_loop]. unfold bind at 1, try_except_Exception.
  unfold bind at 1. rewrite attempt_body_run, H. reflexivity.
Qed.

Lemma loop_step_fails (tr0 : list event) (es : list py_exn)
      (rest : list Z) (e : py_exn) :
  attempt_outcome self prompt tr0 (List.length es) = Raise e ->
  is_Exception e = true ->
  extract_loop self prompt (1 + Z.of_nat (List.length es) :: rest)
               (after self prompt tr0 es)
  = extract_loop self prompt rest (after self prompt tr0 (es ++ [e])).
Proof.
  intros H He. cbn [extract_loop]. unfold bind at 1, try_except_Exception.
  unfold bind at 1. rewrite attempt_body_run, H, He.
  unfold logger_exception, bind, emit, ret, after.
  rewrite failed_trace_app. cbn [failed_trace].
  rewrite <- !app_assoc. reflexivity.
Qed.

Lemma loop_step_interrupted (tr0 : list event) (es : list py_exn)
      (attempt : Z) (rest : list Z) (e : py_exn) :
  attempt_outcome self prompt tr0 (List.length es) = Raise e ->
  is_Exception e = false ->
  extract_loop self prompt (attempt :: rest) (after self prompt tr0 es)
  = (Raise e, after self prompt tr0 es ++ [ChatCompletion (request_of self prompt)]).
Proof.
  intros H He. cbn [extract_loop]. unfold bind at 1, try_except_Exception.
  unfold bind at 1. rewrite attempt_body_run, H, He. reflexivity.
Qed.

Lemma loop_all_fail (tr0 : list event) (n : nat) (es : list py_exn) :
  (forall j, (j < n)%nat -> attempt_fails self prompt tr0 (List.length es + j)) ->
  extract_loop self prompt (attempts_from (List.length es) n)
               (after self prompt tr0 es)
  = (Raise (exhausted self),
     after self prompt tr0
           (es ++ flat_map (raised self prompt tr0) (seq (List.length es) n))).
Proof.
  revert es. induction n as [|n IH]; intros es H.
  - cbn. rewrite app_nil_r. reflexivity.
  - destruct (H 0%nat ltac:(lia)) as [e [He Hc]].
    rewrite Nat.add_0_r in He.
    change (attempts_from (List.length es) (S n))
      with (1 + Z.of_nat (List.length es) :: attempts_from (S (List.length es)) n).
    rewrite (loop_step_fails _ _ _ _ He Hc).
    change (seq (List.length es) (S n))
      with (List.length es :: seq (S (List.length es)) n).
    cbn [flat_map]. unfold raised at 1. rewrite He.
    specialize (IH (es ++ [e])).
    rewrite length_app in IH. cbn [List.length] in IH.
    rewrite Nat.add_1_r in IH. rewrite IH.
    + rewrite <- app_assoc. reflexivity.
    + intros j Hj. replace (S (List.length es) + j)%nat
        with (List.length es + S j)%nat by lia. apply H. lia.
Qed.

Lemma loop_first_success (tr0 : list event) (k m : nat) (es : list py_exn)
      (v : json) :
  (forall j, (j < k)%nat -> attempt_fails self prompt tr0 (List.length es + j)) ->
  attempt_outcome self prompt tr0 (List.length es + k) = Ok v ->
  extract_loop self prompt (attempts_from (List.length es) (S k + m))
               (after self prompt tr0 es)
  = (Ok v,
     after self prompt tr0
           (es ++ flat_map (raised self prompt tr0) (seq (List.length es) k))
     ++ [ChatCompletion (request_of self prompt)]).
Proof.
  revert es. induction k as [|k IH]; intros es H Hv.
  - rewrite Nat.add_0_r in Hv.
    change (attempts_from (List.length es) (1 + m))
      with (1 + Z.of_nat (List.length es) :: attempts_from (S (List.length es)) m).
    cbn [seq flat_map]. rewrite app_nil_r.
    apply loop_step_returns. exact Hv.
  - destruct (H 0%nat ltac:(lia)) as [e [He Hc]].
    rewrite Nat.add_0_r in He.
    change (attempts_from (List.length es) (S (S k) + m))
      with (1 + Z.of_nat (List.length es)
            :: attempts_from (S (List.length es)) (S k + m)).
    rewrite (loop_step_fails _ _ _ _ He Hc).
    change (seq (List.length es) (S k))
      with (List.length es :: seq (S (List.length es)) k).
    cbn [flat_map]. unfold raised at 1. rewrite He.
    specialize (IH (es ++ [e])).
    rewrite length_app in IH. cbn [List.length] in IH.
    rewrite Nat.add_1_r in IH. rewrite IH.
    + rewrite <- app_assoc. reflexivity.
    + intros j Hj. replace (S (List.length es) + j)%nat
        with (List.length es + S j)%nat by lia. apply H. lia.
    + replace (S (List.length es) + k)%nat
        with (List.length es + S k)%nat by lia. exact Hv.
Qed.

Lemma failures_length (tr0 : list event) (n : nat) :
  (forall j, (j < n)%nat -> attempt_fails self prompt tr0 j) ->
  List.length (failures self prompt tr0 n) = n.
Proof.
  unfold failures. intros H.
  assert (G : forall s m,
             (forall j, (s <= j < s + m)%nat -> attempt_fails self prompt tr0 j) ->
             List.length (flat_map (raised self prompt tr0) (seq s m)) = m).
  { intros s m. revert s. induction m as [|m IH]; intros s Hs; [reflexivity|].
    cbn [seq flat_map]. rewrite length_app, IH.
    - unfold raised. destruct (Hs s ltac:(lia)) as [e [He _]]. rewrite He. reflexivity.
    - intros j Hj. apply Hs. lia. }
  apply G. intros j Hj. apply H. lia.
Qed.

(** One iteration of the loop from any trace. *)
Lemma extract_loop_cons (attempt : Z) (rest : list Z) (tr : list event) :
  extract_loop self prompt (attempt :: rest) tr
  = let tr1 := tr ++ [ChatCompletion (request_of self prompt)] in
    match attempt_outcome self prompt tr 0 with
    | Ok v => (Ok v, tr1)
    | Raise e =>
        if is_Exception e
        then extract_loop self prompt rest (tr1 ++ [LogException attempt e])
        else (Raise e, tr1)
    end.
Proof.
  cbn [extract_loop]. unfold bind at 1, try_except_Exception.
  unfold bind at 1. unfold attempt_body, bind, create, lift, attempt_outcome.
  cbn [repeat]. rewrite app_nil_r.
  destruct (_client self (requests_of tr) (request_of self prompt)) as [r|e].
  - destruct (parse_response r) as [v|e]; [reflexivity|].
    destruct (is_Exception e); reflexivity.
  - destruct (is_Exception e); reflexivity.
Qed.
End Loop.


(** ** Runs of [extract] *)

Lemma attempt_fails_caught (self : JSONExtractor.t) (prompt : pystr)
      (tr : list event) (j : nat) :
  caught (attempt_outcome self prompt tr j) = true ->
  attempt_fails self prompt tr j.
Proof.
  unfold attempt_fails, caught.
  destruct (attempt_outcome self prompt tr j) as [v|e]; [discriminate|].
  intros H. exists e. split; [reflexivity | exact H].
Qed.

Lemma py_range_attempts (n : Z) :
  py_range 1 (n + 1) = attempts_from 0 (Z.to_nat n).
Proof.
  unfold py_range, attempts_from. replace (n + 1 - 1) with n by lia. reflexivity.
Qed.

Lemma after_nil (self : JSONExtractor.t) (prompt : pystr) (tr : list event) :
  after self prompt tr [] = tr.
Proof. unfold after. simpl. apply app_nil_r. Qed.

Lemma calls_failed_trace (req : request) (es : list py_exn) (a : Z) :
  calls (failed_trace req a es) = List.length es.
Proof. unfold calls. rewrite requests_of_failed_trace. apply repeat_length. Qed.

(** C1. When every one of the [max_retries] attempts fails (the model call
    raises, or its response cannot be parsed), [extract] makes exactly
    [max_retries] calls of the model, each followed by one log entry, and
    then raises the terminal error whose message carries [max_retries]; it
    returns no record. *)
Theorem extract_exhausts_retries
        (self : JSONExtractor.t) (raw_text : pystr) (tr : list event) :
  0 <= _max_retries self ->
  (forall j, (j < Z.to_nat (_max_retries self))%nat ->
             attempt_fails self (_build_prompt raw_text) tr j) ->
  let prompt := _build_prompt raw_text in
  let es := failures self prompt tr (Z.to_nat (_max_retries self)) in
  let added := failed_trace (request_of self prompt) 1 es in
  extract self raw_text tr
  = (Raise (RuntimeError (lit "Failed to extract JSON after "
                          ++ str_of_int (_max_retries self)
                          ++ lit " attempts")),
     tr ++ added)
  /\ Z.of_nat (calls added) = _max_retries self.
Proof.
  intros Hn Hfail prompt es added. split.
  - unfold extract. fold prompt. rewrite py_range_attempts.
    pose proof (loop_all_fail self prompt tr (Z.to_nat (_max_retries self)) []) as L.
    cbn [List.length app Nat.add] in L. rewrite after_nil in L.
    rewrite L by exact Hfail. reflexivity.
  - unfold added. rewrite calls_failed_trace. unfold es.
    rewrite failures_length by exact Hfail. lia.
Qed.

Lemma extract_exhausts_retries_witness :
  let self := scripted_extractor script_all_invalid in
  0 <= _max_retries self
  /\ extract self sample_text []
     = (Raise (RuntimeError (lit "Failed to extract JSON after 3 attempts")),
        failed_trace (request_of self (_build_prompt sample_text)) 1
          [ no_json_object;
            ClientError (lit "Request timed out.");
            JSONDecodeError
              (lit "Expecting property name enclosed in double quotes") ]).
Proof.
  intros self. split; [vm_compute; discriminate|].
  refine (proj1 (extract_exhausts_retries self sample_text [] _ _)).
  - vm_compute. discriminate.
  - intros j Hj. apply attempt_fails_caught.
    change (Z.to_nat (_max_retries self)) with 3%nat in Hj.
    destruct j as [|[|[|j]]]; [vm_compute; reflexivity .. | lia].
Defined.

(** C2. When the attempt numbered [k + 1] (at most [max_retries]) is the
    first whose response yields a parsed record, after [k] failed attempts,
    [extract] returns that record, and its last interaction is the call of
    that attempt: [k + 1] calls of the model in all, none after it. *)
Theorem extract_returns_first_valid
        (self : JSONExtractor.t) (raw_text : pystr) (tr : list event)
        (k : nat) (record : json) :
  Z.of_nat k < _max_retries self ->
  (forall j, (j < k)%nat -> attempt_fails self (_build_prompt raw_text) tr j) ->
  attempt_outcome self (_build_prompt raw_text) tr k = Ok record ->
  let prompt := _build_prompt raw_text in
  let req := request_of self prompt in
  let added := failed_trace req 1 (failures self prompt tr k)
               ++ [ChatCompletion req] in
  extract self raw_text tr = (Ok record, tr ++ added)
  /\ calls added = S k.
Proof.
  intros Hk Hfail Hok prompt req added. split.
  - unfold extract. fold prompt. rewrite py_range_attempts.
    replace (Z.to_nat (_max_retries self))
      with (S k + (Z.to_nat (_max_retries self) - S k))%nat by lia.
    pose proof (loop_first_success self prompt tr k
                  (Z.to_nat (_max_retries self) - S k) [] record) as L.
    cbn [List.length app] in L. rewrite after_nil in L.
    rewrite L by assumption.
    unfold after, added, failures. rewrite <- app_assoc. reflexivity.
  - unfold added, calls. rewrite requests_of_app, length_app.
    fold (calls (failed_trace req 1 (failures self prompt tr k))).
    rewrite calls_failed_trace, failures_length by exact Hfail.
    cbn. lia.
Qed.

Lemma extract_returns_first_valid_witness :
  let self := scripted_extractor script_third_valid in
  let req := request_of self (_build_prompt sample_text) in
  Z.of_nat 2 < _max_retries self
  /\ attempt_outcome self (_build_prompt sample_text) [] 2 = Ok third_record
  /\ extract self sample_text []
     = (Ok third_record,
        [ ChatCompletion req; LogException 1 no_json_object;
          ChatCompletion req;
          LogException 2 (JSONDecodeError
            (lit "Expecting property name enclosed in double quotes"));
          ChatCompletion req ]).
Proof.
  intros self req.
  assert (H2 : attempt_outcome self (_build_prompt sample_text) [] 2 = Ok third_record)
    by (vm_compute; reflexivity).
  split; [vm_compute; reflexivity|]. split; [exact H2|].
  refine (proj1 (extract_returns_first_valid self sample_text [] 2 third_record _ _ H2)).
  - vm_compute. reflexivity.
  - intros j Hj. apply attempt_fails_caught.
    destruct j as [|[|j]]; [vm_compute; reflexivity .. | lia].
Defined.

(** ** The locator inside an attempt *)

(** C3. On the text [Hello {"foo": 1, "bar": 2} goodbye] the locator returns
    exactly [{"foo": 1, "bar": 2}], from the first opening brace through the
    last closing brace. *)
Theorem extract_json_block_with_surrounding_text :
  _extract_json_block (qlit "Hello {'foo': 1, 'bar': 2} goodbye")
  = Ok (qlit "{'foo': 1, 'bar': 2}").
Proof. vm_compute. reflexivity. Qed.

Example qlit_quotes : qlit "{'a'}" = [123; 34; 97; 34; 125]%N.
Proof. reflexivity. Qed.

(** C4. A response text without an opening brace or without a closing brace
    makes the locator raise its [ValueError]; inside an attempt that error is
    caught and logged, and the loop goes on to the next attempt: the failed
    attempt has made its one call of the model and no other. *)
Theorem no_brace_fails_the_attempt
        (text : pystr) (self : JSONExtractor.t) (prompt : pystr)
        (tr : list event) (response : completion)
        (attempt : Z) (rest : list Z) :
  ~ In 123%N text \/ ~ In 125%N text ->
  _client self (requests_of tr) (request_of self prompt) = Ok response ->
  response_content response = Ok text ->
  _extract_json_block text = Raise no_json_object
  /\ extract_loop self prompt (attempt :: rest) tr
     = extract_loop self prompt rest
         (tr ++ [ChatCompletion (request_of self prompt);
                 LogException attempt no_json_object]).
Proof.
  intros Hb Hc Ht.
  pose proof (extract_json_block_no_brace text Hb) as E.
  split; [exact E|].
  rewrite extract_loop_cons. cbv zeta.
  unfold attempt_outcome. cbn [repeat]. rewrite app_nil_r, Hc.
  unfold parse_response. rewrite Ht, E. cbn [no_json_object is_Exception].
  rewrite <- app_assoc. reflexivity.
Qed.

Lemma no_brace_fails_the_attempt_witness :
  let self := scripted_extractor script_all_invalid in
  let prompt := _build_prompt sample_text in
  let text := lit "I could not find any incident data." in
  (~ In 123%N text \/ ~ In 125%N text)
  /\ _extract_json_block text = Raise no_json_object
  /\ extract_loop self prompt [1; 2] []
     = extract_loop self prompt [2]
         [ChatCompletion (request_of self prompt);
          LogException 1 no_json_object].
Proof.
  intros self prompt text.
  assert (H : ~ In 123%N text \/ ~ In 125%N text).
  { left. vm_compute. intuition discriminate. }
  split; [exact H|].
  exact (no_brace_fails_the_attempt text self prompt []
           {| choices := [Some text] |} 1 [2] H eq_refl eq_refl).
Defined.

(** C9. A text whose last closing brace comes before its first opening
    brace, [a ++ "}" ++ b ++ "{" ++ c] with no opening brace in [a] and [b]
    and no closing brace in [b] and [c], does not make the locator raise: the
    locator returns the empty string.  [json.loads] then refuses the empty
    string, and that error is what fails the attempt. *)
Theorem reversed_braces_yield_empty_block
        (a b c : pystr) (self : JSONExtractor.t) (prompt : pystr)
        (tr : list event) (response : completion)
        (attempt : Z) (rest : list Z) :
  ~ In 123%N a -> ~ In 123%N b -> ~ In 125%N b -> ~ In 125%N c ->
  _client self (requests_of tr) (request_of self prompt) = Ok response ->
  response_content response = Ok (a ++ 125%N :: b ++ 123%N :: c) ->
  _extract_json_block (a ++ 125%N :: b ++ 123%N :: c) = Ok []
  /\ loads [] = Raise expecting_value_error
  /\ extract_loop self prompt (attempt :: rest) tr
     = extract_loop self prompt rest
         (tr ++ [ChatCompletion (request_of self prompt);
                 LogException attempt expecting_value_error]).
Proof.
  intros Ha Hb Hb' Hc Hcl Ht.
  pose proof (extract_json_block_reversed a b c Ha Hb Hb' Hc) as E.
  split; [exact E|]. split; [reflexivity|].
  rewrite extract_loop_cons. cbv zeta.
  unfold attempt_outcome. cbn [repeat]. rewrite app_nil_r, Hcl.
  unfold parse_response. rewrite Ht, E.
  change (loads []) with (@Raise json expecting_value_error).
  cbn [expecting_value_error is_Exception].
  rewrite <- app_assoc. reflexivity.
Qed.

Lemma reversed_braces_yield_empty_block_witness :
  let self := scripted_extractor [reply (lit "} {")] in
  let prompt := _build_prompt sample_text in
  (~ In 123%N [] /\ ~ In 123%N (lit " ") /\ ~ In 125%N (lit " ") /\ ~ In 125%N [])
  /\ _extract_json_block (lit "} {") = Ok []
  /\ loads [] = Raise expecting_value_error
  /\ extract_loop self prompt [1; 2] []
     = extract_loop self prompt [2]
         [ChatCompletion (request_of self prompt);
          LogException 1 expecting_value_error].
Proof.
  intros self prompt.
  assert (H1 : ~ In 123%N (@nil N)) by (intros []).
  assert (H2 : ~ In 123%N (lit " ")) by (vm_compute; intuition discriminate).
  assert (H3 : ~ In 125%N (lit " ")) by (vm_compute; intuition discriminate).
  assert (H4 : ~ In 125%N (@nil N)) by (intros []).
  split; [exact (conj H1 (conj H2 (conj H3 H4)))|].
  exact (reversed_braces_yield_empty_block [] (lit " ") [] self prompt []
           {| choices := [Some (lit "} {")] |} 1 [2]
           H1 H2 H3 H4 eq_refl eq_refl).
Defined.

(** ** What [extract] returns and sends *)

Lemma extract_first_attempt_returns
      (self : JSONExtractor.t) (raw_text : pystr) (tr : list event)
      (v : json) :
  1 <= _max_retries self ->
  attempt_outcome self (_build_prompt raw_text) tr 0 = Ok v ->
  extract self raw_text tr
  = (Ok v, tr ++ [ChatCompletion (request_of self (_build_prompt raw_text))]).
Proof.
  intros Hn Hv. unfold extract. rewrite py_range_attempts.
  destruct (Z.to_nat (_max_retries self)) as [|n] eqn:En; [lia|].
  change (attempts_from 0 (S n)) with (1 :: attempts_from 1 n).
  rewrite extract_loop_cons. cbv zeta. rewrite Hv. reflexivity.
Qed.

(** C5. [extract] checks nothing beyond the parse: there is a response whose
    brace-delimited payload is valid JSON with keys other than the schema's
    (and a string where the schema asks for an integer), and whenever the
    model gives that response to the first attempt, [extract] returns the
    parsed value as it is. *)
Theorem extract_does_not_validate_schema :
  parse_response {| choices := [Some off_schema_content] |}
  = Ok off_schema_record
  /\ keys off_schema_record <> keys _SCHEMA
  /\ forall (self : JSONExtractor.t) (raw_text : pystr) (tr : list event),
       1 <= _max_retries self ->
       _client self (requests_of tr) (request_of self (_build_prompt raw_text))
       = reply off_schema_content ->
       extract self raw_text tr
       = (Ok off_schema_record,
          tr ++ [ChatCompletion (request_of self (_build_prompt raw_text))]).
Proof.
  assert (P : parse_response {| choices := [Some off_schema_content] |}
              = Ok off_schema_record) by (vm_compute; reflexivity).
  split; [exact P|]. split; [vm_compute; discriminate|].
  intros self raw_text tr Hn Hc.
  apply extract_first_attempt_returns; [exact Hn|].
  unfold attempt_outcome. cbn [repeat]. rewrite app_nil_r, Hc. exact P.
Qed.

Lemma extract_loop_requests (self : JSONExtractor.t) (prompt : pystr)
      (attempts : list Z) (tr : list event) :
  exists added,
    snd (extract_loop self prompt attempts tr) = tr ++ added
    /\ forall req, In req (requests_of added) -> req = request_of self prompt.
Proof.
  revert tr. induction attempts as [|attempt rest IH]; intros tr.
  - exists []. split; [symmetry; apply app_nil_r | intros req []].
  - rewrite extract_loop_cons. cbv zeta.
    destruct (attempt_outcome self prompt tr 0) as [v|e].
    + exists [ChatCompletion (request_of self prompt)]. split; [reflexivity|].
      intros req [H|[]]. now symmetry.
    + destruct (is_Exception e).
      * destruct (IH ((tr ++ [ChatCompletion (request_of self prompt)])
                        ++ [LogException attempt e])) as [added [E H]].
        exists (ChatCompletion (request_of self prompt)
                :: LogException attempt e :: added).
        split.
        -- rewrite E, <- !app_assoc. reflexivity.
        -- intros req [Hr|Hr]; [now symmetry | apply H; exact Hr].
      * exists [ChatCompletion (request_of self prompt)]. split; [reflexivity|].
        intros req [H|[]]. now symmetry.
Qed.

(** C7. Whatever the model answers, every call that [extract] makes carries
    the same user message: the fixed instruction, the schema as
    [json.dumps(_SCHEMA, indent=2)] writes it, a blank line, the line
    [--- BEGIN FACT SHEET ---], the raw text unchanged, a newline and
    [--- END FACT SHEET ---]. *)
Theorem every_attempt_sends_the_same_prompt
        (self : JSONExtractor.t) (raw_text : pystr) (tr : list event) :
  let prompt :=
    instruction ++ dumps _SCHEMA 2 ++ nl ++ nl
    ++ lit "--- BEGIN FACT SHEET ---" ++ nl
    ++ raw_text ++ nl
    ++ lit "--- END FACT SHEET ---" in
  dumps _SCHEMA 2 = schema_text
  /\ exists added,
       snd (extract self raw_text tr) = tr ++ added
       /\ forall req, In req (requests_of added) ->
                      messages req = messages_with prompt.
Proof.
  intros prompt. split; [vm_compute; reflexivity|].
  assert (E : _build_prompt raw_text = prompt).
  { unfold _build_prompt, prompt. rewrite <- !app_assoc. reflexivity. }
  unfold extract.
  destruct (extract_loop_requests self (_build_prompt raw_text)
              (py_range 1 (_max_retries self + 1)) tr) as [added [H1 H2]].
  exists added. split; [exact H1|].
  intros req Hreq. rewrite (H2 req Hreq), E. reflexivity.
Qed.

(** C10. [extract_json(raw_text, client, deployment, temperature=t)] is the
    run of [extract] on the extractor with that client, deployment and
    temperature, [max_retries = 3] and [max_tokens = 1024]: from every
    trace, the same result and the same interactions; its requests ask for
    at most 1024 tokens at temperature [t], and its terminal error reports 3
    attempts. *)
Theorem extract_json_is_default_extract
        (raw_text : pystr) (client_ : client) (deployment : pystr)
        (t : Q) (tr : list event) :
  let extractor :=
    {| _client := client_; _deployment := deployment; _temperature := t;
       _max_retries := 3; _max_tokens := 1024 |} in
  JSONExtractor.__init__ client_ deployment (Some t) None None = extractor
  /\ extract_json raw_text client_ deployment (Some t) tr
     = extract extractor raw_text tr
  /\ extract_json raw_text client_ deployment (Some t) tr
     = extract_loop extractor (_build_prompt raw_text) [1; 2; 3] tr
  /\ request_of extractor (_build_prompt raw_text)
     = {| model := deployment;
          messages := messages_with (_build_prompt raw_text);
          max_tokens := 1024; temperature := t; top_p := 1 |}
  /\ exhausted extractor
     = RuntimeError (lit "Failed to extract JSON after 3 attempts").
Proof. intros extractor. repeat split. Qed.

(** ** The PDF helpers *)

Import PdfParser.

Lemma page_texts_all (texts : list pystr) (i : nat) (tr : list PdfParser.event) :
  page_texts i (map Ok texts) tr
  = (Ok texts, tr ++ map GetText (seq i (List.length texts))).
Proof.
  revert i tr. induction texts as [|t texts IH]; intros i tr.
  - cbn. rewrite app_nil_r. reflexivity.
  - cbn [map page_texts List.length seq]. unfold bind at 1.
    unfold bind at 1. unfold emit, lift. unfold bind at 1.
    rewrite IH. unfold ret. rewrite <- app_assoc. reflexivity.
Qed.

(** The [with] statement joins the page texts with single newlines and
    releases the document. *)
Lemma with_fitz_open_joins (L : libraries) (pdf_bytes : bytes)
      (texts : list pystr) (tr : list PdfParser.event) :
  fitz_open L pdf_bytes = Ok {| pages := map Ok texts |} ->
  with_fitz_open L pdf_bytes tr
  = (Ok (join nl texts),
     tr ++ [FitzOpen pdf_bytes (lit "pdf"); DocEnter]
        ++ map GetText (seq 0 (List.length texts)) ++ [DocExit]).
Proof.
  intros H. unfold with_fitz_open, bind, emit, lift, try_finally, ret.
  rewrite H. cbn [pages].
  pose proof (page_texts_all texts 0
                ((tr ++ [FitzOpen pdf_bytes (lit "pdf")]) ++ [DocEnter])) as P.
  unfold bind in P. rewrite P. cbn [snd].
  rewrite <- !app_assoc. reflexivity.
Qed.

(** Once the document is open, the [with] statement ends with its release,
    whether the pages could be read or not. *)
Lemma with_fitz_open_releases (L : libraries) (pdf_bytes : bytes)
      (doc : fitz_document) (tr : list PdfParser.event) :
  fitz_open L pdf_bytes = Ok doc ->
  exists reads,
    snd (with_fitz_open L pdf_bytes tr)
    = tr ++ [FitzOpen pdf_bytes (lit "pdf"); DocEnter] ++ reads ++ [DocExit]
    /\ Forall (fun ev => exists i, ev = GetText i) reads.
Proof.
  intros H. unfold with_fitz_open, bind, emit, lift, try_finally, ret.
  rewrite H.
  assert (G : forall ps i tr0, exists reads,
             snd (page_texts i ps tr0) = tr0 ++ reads
             /\ Forall (fun ev => exists i, ev = GetText i) reads).
  { induction ps as [|p ps IH]; intros i tr0.
    - exists []. split; [symmetry; apply app_nil_r | constructor].
    - cbn [page_texts]. unfold bind at 1. unfold bind at 1.
      unfold emit, lift. destruct p as [t|e].
      + destruct (IH (S i) (tr0 ++ [GetText i])) as [reads [E F]].
        exists (GetText i :: reads). split.
        * unfold bind. destruct (page_texts (S i) ps (tr0 ++ [GetText i])) as [[ts|e] tr'];
            cbn [snd] in *; rewrite E, <- app_assoc; reflexivity.
        * constructor; [eauto | exact F].
      + exists [GetText i]. split; [reflexivity|].
        constructor; [eauto | constructor]. }
  destruct (G (pages doc) 0%nat
              ((tr ++ [FitzOpen pdf_bytes (lit "pdf")]) ++ [DocEnter]))
    as [reads [E F]].
  exists reads. split; [|exact F].
  destruct (page_texts 0 (pages doc)
              ((tr ++ [FitzOpen pdf_bytes (lit "pdf")]) ++ [DocEnter]))
    as [[ts|e] tr'] eqn:R; cbn [snd] in *; rewrite E, <- !app_assoc; reflexivity.
Qed.

(** C6. On the two-page document of the repository's test the function
    [extract_text_from_pdf], as the file has it, returns [None] and opens no
    document: the [with] statement that reads the pages, joins them with a
    newline and releases the document stands outside the function, where it
    yields [a], newline, [b]. *)
Theorem extract_text_from_pdf_returns_none :
  extract_text_from_pdf pdf_header [] = (Ok None, [])
  /\ with_fitz_open (stub_libraries two_pages) pdf_header []
     = (Ok (lit "a" ++ nl ++ lit "b"), two_pages_read).
Proof. split; reflexivity. Qed.

(** C8, as the code has it.  [parse_and_embed] compares the chunk size and
    the chunk overlap nowhere: it calls the text extractor, then hands both
    numbers to the splitter's constructor.  When the text extractor has
    returned and that constructor rejects the configuration, the call fails
    with the constructor's exception, and its only interaction after the
    text extraction is that constructor: no splitting, no embedding. *)
Theorem splitter_rejection_follows_text_extraction
        (L : libraries) (extract_text : bytes -> M PdfParser.event (option pystr))
        (pdf_bytes : bytes) (chunk_size chunk_overlap : Z)
        (return_vectorstore : bool)
        (tr tr1 : list PdfParser.event) (raw_text : option pystr) (e : py_exn) :
  extract_text pdf_bytes tr = (Ok raw_text, tr1) ->
  RecursiveCharacterTextSplitter L chunk_size chunk_overlap = Raise e ->
  parse_and_embed L extract_text pdf_bytes chunk_size chunk_overlap
                  return_vectorstore tr
  = (Raise e, tr1 ++ [SplitterInit chunk_size chunk_overlap]).
Proof.
  intros Ht Hs. unfold parse_and_embed. unfold bind at 1. rewrite Ht.
  unfold bind at 1. unfold bind at 1. unfold emit, lift. rewrite Hs.
  reflexivity.
Qed.

Lemma splitter_rejection_follows_text_extraction_witness :
  let L := stub_libraries two_pages in
  read_text L pdf_header [] = (Ok (Some (lit "a" ++ nl ++ lit "b")), two_pages_read)
  /\ (exists e, RecursiveCharacterTextSplitter L 100 200 = Raise e
                /\ parse_and_embed L (read_text L) pdf_header 100 200 true []
                   = (Raise e, two_pages_read ++ [SplitterInit 100 200])).
Proof.
  intros L. split; [reflexivity|].
  eexists. split; [reflexivity|].
  exact (splitter_rejection_follows_text_extraction
           L (read_text L) pdf_header 100 200 true [] two_pages_read _ _
           eq_refl eq_refl).
Defined.

(** C8, as stated, fails.  With a chunk overlap equal to the chunk size the
    splitter's constructor accepts, and the pipeline goes on to split (and,
    given a text, to embed); with a larger overlap the constructor's error
    comes after the text has been extracted. *)
Lemma parse_and_embed_does_not_fail_fast :
  let L := stub_libraries two_pages in
  parse_and_embed L extract_text_from_pdf pdf_header 100 100 true []
  = (Raise (TypeError (lit "expected string or bytes-like object")),
     [SplitterInit 100 100; SplitText None])
  /\ parse_and_embed L (read_text L) pdf_header 100 100 true []
     = (Ok (inl [{| page_content := lit "a" ++ nl ++ lit "b" |}]),
        two_pages_read
        ++ [SplitterInit 100 100; SplitText (Some (lit "a" ++ nl ++ lit "b"));
            FaissFromDocuments [{| page_content := lit "a" ++ nl ++ lit "b" |}]])
  /\ snd (parse_and_embed L (read_text L) pdf_header 100 200 true [])
     = two_pages_read ++ [SplitterInit 100 200]
  /\ ~ fails_fast L extract_text_from_pdf
  /\ ~ fails_fast L (read_text L).
Proof.
  intros L. split; [reflexivity|]. split; [reflexivity|]. split; [reflexivity|].
  split; intros H.
  - destruct (H pdf_header 100 100 true [] ltac:(lia)) as [e He].
    vm_compute in He. discriminate.
  - destruct (H pdf_header 100 100 true [] ltac:(lia)) as [e He].
    vm_compute in He. discriminate.
Qed.

(** * Further properties *)

(** ** The locator on every text *)

Lemma first_split (x : N) (l : pystr) :
  In x l -> exists p r, l = p ++ x :: r /\ ~ In x p.
Proof.
  induction l as [|y l IH]; intros H; [destruct H|].
  destruct (N.eq_dec y x) as [->|Hne].
  - exists [], l. split; [reflexivity | intros []].
  - destruct H as [H|H]; [contradiction|].
    destruct (IH H) as [p [r [E Hp]]]. exists (y :: p), r. split.
    + rewrite E. reflexivity.
    + intros [Hy|Hy]; [contradiction | exact (Hp Hy)].
Qed.

Lemma last_split (x : N) (l : pystr) :
  In x l -> exists p r, l = p ++ x :: r /\ ~ In x r.
Proof.
  intros H. apply in_rev in H.
  destruct (first_split x (rev l) H) as [p [r [E Hp]]].
  exists (rev r), (rev p). split.
  - rewrite <- (rev_involutive l), E, rev_app_distr. cbn [rev].
    rewrite <- app_assoc. reflexivity.
  - intros Hin. apply Hp. apply in_rev. exact Hin.
Qed.

Lemma slice_middle (a m c : pystr) :
  slice (a ++ m ++ c) (Z.of_nat (List.length a))
        (Z.of_nat (List.length a) + Z.of_nat (List.length m)) = m.
Proof.
  unfold slice, slice_index. rewrite !length_app.
  destruct (Z.ltb_spec (Z.of_nat (List.length a)) 0); [lia|].
  destruct (Z.ltb_spec (Z.of_nat (List.length a) + Z.of_nat (List.length m)) 0); [lia|].
  rewrite !Z.min_l by lia.
  destruct (Z.ltb_spec (Z.of_nat (List.length a))
                       (Z.of_nat (List.length a) + Z.of_nat (List.length m))) as [Hlt|Hge].
  - rewrite Nat2Z.id.
    replace (Z.to_nat (Z.of_nat (List.length a) + Z.of_nat (List.length m)
                       - Z.of_nat (List.length a))) with (List.length m) by lia.
    rewrite skipn_app, Nat.sub_diag, skipn_all. cbn [skipn app].
    rewrite firstn_app, Nat.sub_diag, firstn_all. cbn [firstn]. apply app_nil_r.
  - destruct m; [reflexivity | cbn [List.length] in Hge; lia].
Qed.

Lemma extract_json_block_ordered (a m c : pystr) :
  ~ In 123%N a -> ~ In 125%N c ->
  _extract_json_block (a ++ 123%N :: m ++ 125%N :: c)
  = Ok (123%N :: m ++ [125%N]).
Proof.
  intros Ha Hc. unfold _extract_json_block.
  change (lit "{") with [123%N]. change (lit "}") with [125%N].
  assert (F : find (a ++ 123%N :: m ++ 125%N :: c) [123%N]
              = Z.of_nat (List.length a)).
  { unfold find. rewrite find_from_first by assumption. lia. }
  assert (R : rfind (a ++ 123%N :: m ++ 125%N :: c) [125%N]
              = Z.of_nat (List.length a) + 1 + Z.of_nat (List.length m)).
  { unfold rfind.
    replace (a ++ 123%N :: m ++ 125%N :: c) with ((a ++ 123%N :: m) ++ 125%N :: c)
      by (rewrite <- app_assoc; reflexivity).
    rewrite rfind_from_last by (assumption || lia).
    rewrite length_app. cbn [List.length]. lia. }
  rewrite F, R.
  destruct (Z.eqb_spec (Z.of_nat (List.length a)) (-1)); [lia|].
  destruct (Z.eqb_spec (Z.of_nat (List.length a) + 1 + Z.of_nat (List.length m)) (-1));
    [lia|].
  cbn [orb]. f_equal.
  replace (a ++ 123%N :: m ++ 125%N :: c)
    with (a ++ (123%N :: m ++ [125%N]) ++ c)
    by (cbn [app]; rewrite <- app_assoc; reflexivity).
  replace (Z.of_nat (List.length a) + 1 + Z.of_nat (List.length m) + 1)
    with (Z.of_nat (List.length a)
          + Z.of_nat (List.length (123%N :: m ++ [125%N])))
    by (cbn [List.length]; rewrite length_app; cbn [List.length]; lia).
  apply slice_middle.
Qed.

(** The three shapes of a text, by where its braces are. *)
Lemma brace_cases (text : pystr) :
  (~ In 123%N text \/ ~ In 125%N text)
  \/ (exists a b c, text = a ++ 125%N :: b ++ 123%N :: c
                    /\ ~ In 123%N a /\ ~ In 123%N b
                    /\ ~ In 125%N b /\ ~ In 125%N c)
  \/ (exists a m c, text = a ++ 123%N :: m ++ 125%N :: c
                    /\ ~ In 123%N a /\ ~ In 125%N c).
Proof.
  destruct (in_dec N.eq_dec 123%N text) as [H1|H1]; [|left; left; exact H1].
  destruct (in_dec N.eq_dec 125%N text) as [H2|H2]; [|left; right; exact H2].
  right.
  destruct (first_split _ _ H1) as [p [r [E Hp]]].
  destruct (in_dec N.eq_dec 125%N r) as [Hr|Hr].
  - right. destruct (last_split _ _ Hr) as [m [c [Er Hc]]].
    exists p, m, c. subst r. auto.
  - left. assert (Hin : In 125%N p).
    { rewrite E in H2. apply in_app_or in H2.
      destruct H2 as [H2|[H2|H2]]; [exact H2 | discriminate | contradiction]. }
    destruct (last_split _ _ Hin) as [a [b [Ep Hb]]].
    exists a, b, r. subst p. split; [rewrite E, <- app_assoc; reflexivity|].
    repeat split; try assumption.
    + intros Hx. apply Hp. apply in_or_app. now left.
    + intros Hx. apply Hp. apply in_or_app. right. now right.
Qed.

(** X1. When the first opening brace of a text comes before its last
    closing brace, the locator returns the text from the one through the
    other, both included, and nothing of what lies outside. *)
Theorem extract_json_block_spans_braces (a m c : pystr) :
  ~ In 123%N a -> ~ In 125%N c ->
  _extract_json_block (a ++ 123%N :: m ++ 125%N :: c)
  = Ok (123%N :: m ++ [125%N]).
Proof. apply extract_json_block_ordered. Qed.

Lemma extract_json_block_spans_braces_witness :
  (~ In 123%N (lit "Result: ") /\ ~ In 125%N (lit " (end)"))
  /\ _extract_json_block (qlit "Result: {'a': {'b': 1}} (end)")
     = Ok (qlit "{'a': {'b': 1}}").
Proof.
  assert (H1 : ~ In 123%N (lit "Result: ")) by (vm_compute; intuition discriminate).
  assert (H2 : ~ In 125%N (lit " (end)")) by (vm_compute; intuition discriminate).
  split; [exact (conj H1 H2)|].
  exact (extract_json_block_spans_braces
           (lit "Result: ") (qlit "'a': {'b': 1}") (lit " (end)") H1 H2).
Defined.

(** X2. The locator raises exactly when the text lacks an opening brace or
    lacks a closing brace, and its [ValueError] is the only error it ever
    raises. *)
Theorem extract_json_block_raises_iff (text : pystr) :
  (_extract_json_block text = Raise no_json_object
   <-> ~ In 123%N text \/ ~ In 125%N text)
  /\ forall e, _extract_json_block text = Raise e -> e = no_json_object.
Proof.
  assert (G : forall e, _extract_json_block text = Raise e ->
                        e = no_json_object /\ (~ In 123%N text \/ ~ In 125%N text)).
  { intros e He.
    destruct (brace_cases text)
      as [H | [(a & b & c & E & ? & ? & ? & ?) | (a & m & c & E & ? & ?)]].
    - rewrite (extract_json_block_no_brace text H) in He.
      injection He as <-. split; [reflexivity | exact H].
    - subst text. rewrite extract_json_block_reversed in He by assumption.
      discriminate.
    - subst text. rewrite extract_json_block_ordered in He by assumption.
      discriminate. }
  split; [split|].
  - intros H. exact (proj2 (G _ H)).
  - apply extract_json_block_no_brace.
  - intros e He. exact (proj1 (G e He)).
Qed.

Lemma not_in_app3 (x : N) (a t c : pystr) :
  ~ In x a -> ~ In x t -> ~ In x c -> ~ In x (a ++ t ++ c).
Proof.
  intros Ha Ht Hc H. apply in_app_or in H. destruct H as [H|H]; [tauto|].
  apply in_app_or in H. tauto.
Qed.

Lemma not_in_app (x : N) (a c : pystr) :
  ~ In x a -> ~ In x c -> ~ In x (a ++ c).
Proof. intros Ha Hc H. apply in_app_or in H. tauto. Qed.

(** What lies before the first and after the last brace does not count. *)
Lemma extract_json_block_outside (a text c : pystr) :
  brace_free a -> brace_free c ->
  _extract_json_block (a ++ text ++ c) = _extract_json_block text.
Proof.
  intros [Ha Ha'] [Hc Hc'].
  destruct (brace_cases text)
    as [H | [(a0 & b & c0 & E & ? & ? & ? & ?) | (a0 & m & c0 & E & ? & ?)]].
  - rewrite (extract_json_block_no_brace text H).
    apply extract_json_block_no_brace.
    destruct H as [H|H]; [left | right]; apply not_in_app3; assumption.
  - subst text.
    replace (a ++ (a0 ++ 125%N :: b ++ 123%N :: c0) ++ c)
      with ((a ++ a0) ++ 125%N :: b ++ 123%N :: (c0 ++ c))
      by (repeat (rewrite <- app_assoc; cbn [app]); reflexivity).
    rewrite !extract_json_block_reversed;
      try assumption; try (apply not_in_app; assumption).
    reflexivity.
  - subst text.
    replace (a ++ (a0 ++ 123%N :: m ++ 125%N :: c0) ++ c)
      with ((a ++ a0) ++ 123%N :: m ++ 125%N :: (c0 ++ c))
      by (repeat (rewrite <- app_assoc; cbn [app]); reflexivity).
    rewrite !extract_json_block_ordered;
      try assumption; try (apply not_in_app; assumption).
    reflexivity.
Qed.

Lemma lstrip_split (s : pystr) :
  exists w, s = w ++ lstrip s /\ Forall (fun c => isspace c = true) w.
Proof.
  induction s as [|x s [w [E F]]].
  - exists []. split; [reflexivity | constructor].
  - cbn [lstrip]. destruct (isspace x) eqn:Hx.
    + exists (x :: w). split; [cbn; f_equal; exact E | constructor; assumption].
    + exists []. split; [reflexivity | constructor].
Qed.

Lemma strip_split (s : pystr) :
  exists w1 w2, s = w1 ++ strip s ++ w2
                /\ Forall (fun c => isspace c = true) w1
                /\ Forall (fun c => isspace c = true) w2.
Proof.
  destruct (lstrip_split s) as [w1 [E1 F1]].
  destruct (lstrip_split (rev (lstrip s))) as [w2 [E2 F2]].
  exists w1, (rev w2). split; [|split; [exact F1|]].
  - unfold strip, rstrip. rewrite <- rev_app_distr, <- E2, rev_involutive.
    exact E1.
  - apply Forall_rev. exact F2.
Qed.

Lemma spaces_brace_free (w : pystr) :
  Forall (fun c => isspace c = true) w -> brace_free w.
Proof.
  intros F. split; intros H;
    (rewrite Forall_forall in F; apply F in H; vm_compute in H; discriminate).
Qed.

(** The [strip] of line 108 never changes what the locator finds. *)
Lemma extract_json_block_strip (content : pystr) :
  _extract_json_block (strip content) = _extract_json_block content.
Proof.
  destruct (strip_split content) as [w1 [w2 [E [F1 F2]]]].
  rewrite E at 2. symmetry.
  apply extract_json_block_outside; apply spaces_brace_free; assumption.
Qed.

Lemma parse_response_first_choice (content : pystr) (others : list (option pystr)) :
  parse_response {| choices := Some content :: others |}
  = match _extract_json_block content with
    | Raise e => Raise e
    | Ok json_str => loads json_str
    end.
Proof.
  unfold parse_response, response_content. cbn [choices].
  rewrite extract_json_block_strip. reflexivity.
Qed.

(** X3. Only the first choice of a completion is read, and in its content
    only the part from the first brace to the last: prose or white space
    around it, free of braces, changes nothing of what the attempt parses,
    and neither do the other choices. *)
Theorem parse_response_ignores_surroundings
        (a text c : pystr) (others others' : list (option pystr)) :
  brace_free a -> brace_free c ->
  parse_response {| choices := Some (a ++ text ++ c) :: others |}
  = parse_response {| choices := Some text :: others' |}.
Proof.
  intros Ha Hc. rewrite !parse_response_first_choice.
  rewrite extract_json_block_outside by assumption. reflexivity.
Qed.

Lemma parse_response_ignores_surroundings_witness :
  (brace_free (lit "  Here you go: ") /\ brace_free (lit " Anything else? "))
  /\ parse_response
       {| choices := [ Some (qlit "  Here you go: {'year': 2020} Anything else? ");
                       Some (lit "second choice"); None ] |}
     = parse_response {| choices := [ Some (qlit "{'year': 2020}") ] |}.
Proof.
  assert (H1 : brace_free (lit "  Here you go: "))
    by (split; vm_compute; intuition discriminate).
  assert (H2 : brace_free (lit " Anything else? "))
    by (split; vm_compute; intuition discriminate).
  split; [exact (conj H1 H2)|].
  exact (parse_response_ignores_surroundings
           (lit "  Here you go: ") (qlit "{'year': 2020}") (lit " Anything else? ")
           [Some (lit "second choice"); None] [] H1 H2).
Defined.

(** X4. The locator is idempotent on what it finds: a non-empty block that
    it returned is returned unchanged when located again. *)
Theorem extract_json_block_idempotent (text block : pystr) :
  _extract_json_block text = Ok block ->
  block <> [] ->
  _extract_json_block block = Ok block.
Proof.
  intros H Hne.
  destruct (brace_cases text)
    as [Hb | [(a & b & c & E & ? & ? & ? & ?) | (a & m & c & E & ? & ?)]].
  - rewrite (extract_json_block_no_brace text Hb) in H. discriminate.
  - subst text. rewrite extract_json_block_reversed in H by assumption.
    injection H as <-. contradiction.
  - subst text. rewrite extract_json_block_ordered in H by assumption.
    injection H as <-.
    apply (extract_json_block_ordered [] m []); intros [].
Qed.

Lemma extract_json_block_idempotent_witness :
  _extract_json_block (qlit "Hello {'foo': 1, 'bar': 2} goodbye")
  = Ok (qlit "{'foo': 1, 'bar': 2}")
  /\ qlit "{'foo': 1, 'bar': 2}" <> []
  /\ _extract_json_block (qlit "{'foo': 1, 'bar': 2}")
     = Ok (qlit "{'foo': 1, 'bar': 2}").
Proof.
  assert (H1 : _extract_json_block (qlit "Hello {'foo': 1, 'bar': 2} goodbye")
               = Ok (qlit "{'foo': 1, 'bar': 2}")) by (vm_compute; reflexivity).
  assert (H2 : qlit "{'foo': 1, 'bar': 2}" <> []) by (vm_compute; discriminate).
  split; [exact H1|]. split; [exact H2|].
  exact (extract_json_block_idempotent _ _ H1 H2).
Defined.

(** ** Every run of [extract] *)

Section Runs.
Variables (self : JSONExtractor.t) (prompt : pystr).

(** How the loop ends, whatever the client does: after some caught
    failures it has run out of attempts, or an attempt has returned, or an
    attempt has raised what the handler lets through. *)
Lemma loop_shape (tr0 : trace) (n : nat) (es : list py_exn) :
  exists es',
    (forall j, (j < List.length es')%nat ->
               attempt_fails self prompt tr0 (List.length es + j))
    /\ ((List.length es' = n
         /\ extract_loop self prompt (attempts_from (List.length es) n)
                         (after self prompt tr0 es)
            = (Raise (exhausted self), after self prompt tr0 (es ++ es')))
        \/ ((List.length es' < n)%nat
            /\ exists v,
                 attempt_outcome self prompt tr0 (List.length (es ++ es')) = Ok v
                 /\ extract_loop self prompt (attempts_from (List.length es) n)
                                 (after self prompt tr0 es)
                    = (Ok v, after self prompt tr0 (es ++ es')
                             ++ [ChatCompletion (request_of self prompt)]))
        \/ ((List.length es' < n)%nat
            /\ exists e,
                 attempt_outcome self prompt tr0 (List.length (es ++ es')) = Raise e
                 /\ is_Exception e = false
                 /\ extract_loop self prompt (attempts_from (List.length es) n)
                                 (after self prompt tr0 es)
                    = (Raise e, after self prompt tr0 (es ++ es')
                                ++ [ChatCompletion (request_of self prompt)]))).
Proof.
  revert es. induction n as [|n IH]; intros es.
  - exists []. split; [cbn; intros j Hj; lia|].
    left. split; [reflexivity|]. rewrite app_nil_r. reflexivity.
  - change (attempts_from (List.length es) (S n))
      with (1 + Z.of_nat (List.length es) :: attempts_from (S (List.length es)) n).
    destruct (attempt_outcome self prompt tr0 (List.length es)) as [v|e] eqn:Ho.
    + exists []. split; [cbn; intros j Hj; lia|].
      right. left. split; [cbn; lia|]. exists v. rewrite app_nil_r.
      split; [exact Ho|]. apply loop_step_returns. exact Ho.
    + destruct (is_Exception e) eqn:He.
      * destruct (IH (es ++ [e])) as [es' [Hf Hshape]].
        rewrite length_app in Hf, Hshape. cbn [List.length] in Hf, Hshape.
        rewrite Nat.add_1_r in Hf, Hshape.
        exists (e :: es'). split.
        -- intros j Hj. destruct j as [|j].
           ++ rewrite Nat.add_0_r. exists e. split; assumption.
           ++ replace (List.length es + S j)%nat
                with (S (List.length es) + j)%nat by lia.
              apply Hf. cbn [List.length] in Hj. lia.
        -- rewrite (loop_step_fails self prompt _ _ _ _ Ho He).
           replace (es ++ e :: es') with ((es ++ [e]) ++ es')
             by (rewrite <- app_assoc; reflexivity).
           cbn [List.length].
           destruct Hshape as [[Hl Hr] | [[Hl Hr] | [Hl Hr]]].
           ++ left. split; [lia | exact Hr].
           ++ right. left. split; [lia | exact Hr].
           ++ right. right. split; [lia | exact Hr].
      * exists []. split; [cbn; intros j Hj; lia|].
        right. right. split; [cbn; lia|]. exists e. rewrite app_nil_r.
        split; [exact Ho|]. split; [exact He|].
        apply loop_step_interrupted; assumption.
Qed.

Lemma loop_first_interrupt (tr0 : trace) (k m : nat) (es : list py_exn)
      (e : py_exn) :
  (forall j, (j < k)%nat -> attempt_fails self prompt tr0 (List.length es + j)) ->
  attempt_outcome self prompt tr0 (List.length es + k) = Raise e ->
  is_Exception e = false ->
  extract_loop self prompt (attempts_from (List.length es) (S k + m))
               (after self prompt tr0 es)
  = (Raise e,
     after self prompt tr0
           (es ++ flat_map (raised self prompt tr0) (seq (List.length es) k))
     ++ [ChatCompletion (request_of self prompt)]).
Proof.
  revert es. induction k as [|k IH]; intros es H Hv Hn.
  - rewrite Nat.add_0_r in Hv.
    change (attempts_from (List.length es) (1 + m))
      with (1 + Z.of_nat (List.length es) :: attempts_from (S (List.length es)) m).
    cbn [seq flat_map]. rewrite app_nil_r.
    apply loop_step_interrupted; assumption.
  - destruct (H 0%nat ltac:(lia)) as [e0 [He Hc]].
    rewrite Nat.add_0_r in He.
    change (attempts_from (List.length es) (S (S k) + m))
      with (1 + Z.of_nat (List.length es)
            :: attempts_from (S (List.length es)) (S k + m)).
    rewrite (loop_step_fails self prompt _ _ _ _ He Hc).
    change (seq (List.length es) (S k))
      with (List.length es :: seq (S (List.length es)) k).
    cbn [flat_map]. unfold raised at 1. rewrite He.
    specialize (IH (es ++ [e0])).
    rewrite length_app in IH. cbn [List.length] in IH.
    rewrite Nat.add_1_r in IH. rewrite IH.
    + rewrite <- app_assoc. reflexivity.
    + intros j Hj. replace (S (List.length es) + j)%nat
        with (List.length es + S j)%nat by lia. apply H. lia.
    + replace (S (List.length es) + k)%nat
        with (List.length es + S k)%nat by lia. exact Hv.
    + exact Hn.
Qed.
End Runs.

Lemma logs_app (a b : trace) : logs (a ++ b) = (logs a + logs b)%nat.
Proof. unfold logs. rewrite filter_app, length_app. reflexivity. Qed.

Lemma calls_app (a b : trace) : calls (a ++ b) = (calls a + calls b)%nat.
Proof. unfold calls. rewrite requests_of_app, length_app. reflexivity. Qed.

Lemma logs_failed_trace (req : request) (es : list py_exn) (a : Z) :
  logs (failed_trace req a es) = List.length es.
Proof.
  revert a. induction es as [|e es IH]; intros a; [reflexivity|].
  cbn [failed_trace]. unfold logs in *. cbn [filter List.length].
  f_equal. apply IH.
Qed.

(** X5. With [max_retries] zero or negative the loop has no iteration:
    [extract] calls the model not once and raises its terminal error at
    once, whatever the client would have answered. *)
Theorem extract_without_attempts
        (self : JSONExtractor.t) (raw_text : pystr) (tr : trace) :
  _max_retries self <= 0 ->
  extract self raw_text tr
  = (Raise (RuntimeError (lit "Failed to extract JSON after "
                          ++ str_of_int (_max_retries self)
                          ++ lit " attempts")), tr).
Proof.
  intros H. unfold extract, py_range.
  replace (Z.to_nat (_max_retries self + 1 - 1)) with 0%nat by lia.
  reflexivity.
Qed.

Lemma extract_without_attempts_witness :
  let self := JSONExtractor.__init__ (scripted_client script_third_valid)
                (lit "gpt-4o-mini") None (Some 0) None in
  _max_retries self <= 0
  /\ extract self sample_text []
     = (Raise (RuntimeError (lit "Failed to extract JSON after 0 attempts")), []).
Proof.
  intros self.
  assert (H : _max_retries self <= 0) by (vm_compute; discriminate).
  split; [exact H|].
  exact (extract_without_attempts self sample_text [] H).
Defined.

(** X6. Whatever the client does, [extract] only appends to the trace, it
    calls the model at most [max_retries] times, it writes one log entry per
    failed attempt and no other, and when it returns a record the last
    thing it did was the call that produced it. *)
Theorem extract_calls_bounded
        (self : JSONExtractor.t) (raw_text : pystr) (tr : trace) :
  exists added,
    snd (extract self raw_text tr) = tr ++ added
    /\ Z.of_nat (calls added) <= Z.max 0 (_max_retries self)
    /\ match fst (extract self raw_text tr) with
       | Ok _ => calls added = S (logs added)
                 /\ exists before,
                      added = before
                              ++ [ChatCompletion
                                    (request_of self (_build_prompt raw_text))]
       | Raise e => if is_Exception e
                    then calls added = logs added
                    else calls added = S (logs added)
       end.
Proof.
  unfold extract. rewrite py_range_attempts.
  set (prompt := _build_prompt raw_text).
  set (n := Z.to_nat (_max_retries self)).
  destruct (loop_shape self prompt tr n []) as [es' [_ Hshape]].
  cbn [List.length app] in Hshape. rewrite after_nil in Hshape.
  unfold after in Hshape.
  destruct Hshape as [[Hl Hr] | [[Hl [v [_ Hr]]] | [Hl [e [_ [He Hr]]]]]];
    rewrite Hr; cbn [fst snd].
  - exists (failed_trace (request_of self prompt) 1 es'). split; [reflexivity|].
    rewrite calls_failed_trace, logs_failed_trace. split; [lia|].
    reflexivity.
  - exists (failed_trace (request_of self prompt) 1 es'
            ++ [ChatCompletion (request_of self prompt)]).
    split; [rewrite app_assoc; reflexivity|].
    rewrite calls_app, logs_app, calls_failed_trace, logs_failed_trace.
    cbn. split; [lia|]. split; [lia|]. eexists. reflexivity.
  - exists (failed_trace (request_of self prompt) 1 es'
            ++ [ChatCompletion (request_of self prompt)]).
    split; [rewrite app_assoc; reflexivity|].
    rewrite calls_app, logs_app, calls_failed_trace, logs_failed_trace.
    rewrite He. cbn. split; lia.
Qed.

(** X7. No error of an attempt reaches the caller of [extract]: an
    [Exception] that [extract] raises is its terminal [RuntimeError], and it
    is raised only when each of the [max_retries] attempts has failed and
    has been logged. *)
Theorem extract_raises_only_exhaustion
        (self : JSONExtractor.t) (raw_text : pystr) (tr tr' : trace)
        (e : py_exn) :
  extract self raw_text tr = (Raise e, tr') ->
  is_Exception e = true ->
  e = exhausted self
  /\ (forall j, (j < Z.to_nat (_max_retries self))%nat ->
                attempt_fails self (_build_prompt raw_text) tr j)
  /\ exists es, List.length es = Z.to_nat (_max_retries self)
                /\ tr' = tr ++ failed_trace
                                 (request_of self (_build_prompt raw_text)) 1 es.
Proof.
  unfold extract. rewrite py_range_attempts.
  set (prompt := _build_prompt raw_text).
  set (n := Z.to_nat (_max_retries self)).
  intros Hrun He.
  destruct (loop_shape self prompt tr n []) as [es' [Hf Hshape]].
  cbn [List.length app Nat.add] in Hf, Hshape. rewrite after_nil in Hshape.
  unfold after in Hshape.
  destruct Hshape as [[Hl Hr] | [[Hl [v [_ Hr]]] | [Hl [e0 [_ [He0 Hr]]]]]];
    rewrite Hr in Hrun.
  - injection Hrun as <- <-. split; [reflexivity|]. split.
    + intros j Hj. apply Hf. lia.
    + exists es'. split; [exact Hl | reflexivity].
  - discriminate.
  - injection Hrun as <- <-. congruence.
Qed.

Lemma extract_raises_only_exhaustion_witness :
  let self := scripted_extractor script_all_invalid in
  exists tr',
    extract self sample_text []
    = (Raise (RuntimeError (lit "Failed to extract JSON after 3 attempts")), tr')
    /\ (forall j, (j < 3)%nat ->
                  attempt_fails self (_build_prompt sample_text) [] j)
    /\ exists es, List.length es = 3%nat
                  /\ tr' = failed_trace
                             (request_of self (_build_prompt sample_text)) 1 es.
Proof.
  intros self.
  destruct (extract self sample_text []) as [r tr'] eqn:Hrun.
  assert (Hr : r = Raise (RuntimeError (lit "Failed to extract JSON after 3 attempts"))).
  { change r with (fst (r, tr')). rewrite <- Hrun. vm_compute. reflexivity. }
  subst r. exists tr'. split; [reflexivity|].
  exact (proj2 (extract_raises_only_exhaustion self sample_text [] tr' _
                  Hrun eq_refl)).
Defined.

(** X8. An exception that is no [Exception] (an interrupt) is not caught:
    when the attempt that follows [k] failed ones raises it, [extract]
    raises it at once, without a log entry for it and without another
    attempt. *)
Theorem extract_propagates_interrupt
        (self : JSONExtractor.t) (raw_text : pystr) (tr : trace)
        (k : nat) (e : py_exn) :
  Z.of_nat k < _max_retries self ->
  (forall j, (j < k)%nat -> attempt_fails self (_build_prompt raw_text) tr j) ->
  attempt_outcome self (_build_prompt raw_text) tr k = Raise e ->
  is_Exception e = false ->
  let prompt := _build_prompt raw_text in
  let req := request_of self prompt in
  extract self raw_text tr
  = (Raise e,
     tr ++ failed_trace req 1 (failures self prompt tr k) ++ [ChatCompletion req]).
Proof.
  intros Hk Hfail Ho He prompt req.
  unfold extract. fold prompt. rewrite py_range_attempts.
  replace (Z.to_nat (_max_retries self))
    with (S k + (Z.to_nat (_max_retries self) - S k))%nat by lia.
  pose proof (loop_first_interrupt self prompt tr k
                (Z.to_nat (_max_retries self) - S k) [] e) as L.
  cbn [List.length app] in L. rewrite after_nil in L.
  rewrite L by assumption.
  unfold after, failures. rewrite <- app_assoc. reflexivity.
Qed.

Lemma extract_propagates_interrupt_witness :
  let self := scripted_extractor
                [ reply (lit "no data"); Raise KeyboardInterrupt;
                  reply (qlit "{'year': 2020}") ] in
  let req := request_of self (_build_prompt sample_text) in
  Z.of_nat 1 < _max_retries self
  /\ attempt_outcome self (_build_prompt sample_text) [] 1 = Raise KeyboardInterrupt
  /\ extract self sample_text []
     = (Raise KeyboardInterrupt,
        [ ChatCompletion req; LogException 1 no_json_object; ChatCompletion req ]).
Proof.
  intros self req.
  assert (H1 : attempt_outcome self (_build_prompt sample_text) [] 1
               = Raise KeyboardInterrupt) by (vm_compute; reflexivity).
  split; [vm_compute; reflexivity|]. split; [exact H1|].
  refine (extract_propagates_interrupt self sample_text [] 1 KeyboardInterrupt
            _ _ H1 eq_refl).
  - vm_compute. reflexivity.
  - intros j Hj. apply attempt_fails_caught.
    destruct j as [|j]; [vm_compute; reflexivity | lia].
Defined.

(** ** What a returned record is *)

Lemma object_loop_dict (scan : pystr -> py_result (json * pystr))
      (fuel : nat) (s : pystr) (pairs : list (pystr * json))
      (v : json) (rest : pystr) :
  object_loop scan fuel s pairs = Ok (v, rest) -> is_dict v = true.
Proof.
  revert s pairs. induction fuel as [|fuel IH]; intros s pairs H;
    cbn [object_loop] in H; [discriminate|].
  repeat (match type of H with
          | context [match ?x with _ => _ end] => destruct x eqn:?
          end; try discriminate).
  - injection H as <- <-. reflexivity.
  - eapply IH. exact H.
Qed.

Lemma parse_object_dict (scan : pystr -> py_result (json * pystr))
      (s : pystr) (v : json) (rest : pystr) :
  parse_object scan s = Ok (v, rest) -> is_dict v = true.
Proof.
  unfold parse_object. intros H.
  destruct (skip_ws s) as [|c s']; [discriminate|].
  destruct (c =? 34)%N; [eapply object_loop_dict; exact H|].
  destruct (c =? 125)%N; [|discriminate].
  injection H as <- <-. reflexivity.
Qed.

Lemma loads_brace (r : pystr) :
  loads (123%N :: r)
  = match parse_object (scan_once (List.length (123%N :: r))) r with
    | Raise e => Raise e
    | Ok (obj, rest) =>
        match skip_ws rest with
        | [] => Ok obj
        | _ :: _ => Raise (JSONDecodeError (lit "Extra data"))
        end
    end.
Proof. reflexivity. Qed.

Lemma loads_brace_dict (r : pystr) (v : json) :
  loads (123%N :: r) = Ok v -> is_dict v = true.
Proof.
  rewrite loads_brace.
  destruct (parse_object _ r) as [[obj rest]|e] eqn:P; [|discriminate].
  intros H. destruct (skip_ws rest); [|discriminate].
  injection H as <-. eapply parse_object_dict. exact P.
Qed.

Lemma parse_response_dict (response : completion) (v : json) :
  parse_response response = Ok v -> is_dict v = true.
Proof.
  unfold parse_response.
  destruct (response_content response) as [content|]; [|discriminate].
  destruct (_extract_json_block content) as [block|] eqn:B; [|discriminate].
  intros H.
  destruct (brace_cases content)
    as [Hb | [(a & b & c & E & ? & ? & ? & ?) | (a & m & c & E & ? & ?)]].
  - rewrite (extract_json_block_no_brace content Hb) in B. discriminate.
  - subst content. rewrite extract_json_block_reversed in B by assumption.
    injection B as <-. discriminate.
  - subst content. rewrite extract_json_block_ordered in B by assumption.
    injection B as <-. eapply loads_brace_dict. exact H.
Qed.

(** X9. A record that [extract] returns is a JSON object (a [dict]), never
    a list, a string, a number, a boolean or null: the payload it decodes
    begins with an opening brace. *)
Theorem extract_returns_a_dict
        (self : JSONExtractor.t) (raw_text : pystr) (tr tr' : trace)
        (record : json) :
  extract self raw_text tr = (Ok record, tr') ->
  exists items, record = JDict items.
Proof.
  unfold extract. rewrite py_range_attempts. intros Hrun.
  destruct (loop_shape self (_build_prompt raw_text) tr
                       (Z.to_nat (_max_retries self)) []) as [es' [_ Hshape]].
  cbn [List.length app] in Hshape. rewrite after_nil in Hshape.
  assert (D : is_dict record = true).
  { destruct Hshape as [[Hl Hr] | [[Hl [v [Ho Hr]]] | [Hl [e0 [_ [He0 Hr]]]]]];
      rewrite Hr in Hrun; try discriminate.
    injection Hrun as <- _. unfold attempt_outcome in Ho.
    destruct (_client self _ _) as [response|]; [|discriminate].
    eapply parse_response_dict. exact Ho. }
  destruct record; try discriminate. eexists. reflexivity.
Qed.

Lemma extract_returns_a_dict_witness :
  let self := scripted_extractor script_third_valid in
  exists tr',
    extract self sample_text [] = (Ok third_record, tr')
    /\ exists items, third_record = JDict items.
Proof.
  intros self.
  destruct (extract self sample_text []) as [r tr'] eqn:Hrun.
  assert (Hr : r = Ok third_record).
  { change r with (fst (r, tr')). rewrite <- Hrun. vm_compute. reflexivity. }
  subst r. exists tr'. split; [reflexivity|].
  exact (extract_returns_a_dict self sample_text [] tr' third_record Hrun).
Defined.

(** ** What every call asks for *)


(** X11. A completion without choices, or whose first choice has no
    content, does not break [extract]: the [IndexError] or [AttributeError]
    of line 108 is caught and logged like any other failure, and the loop
    goes on to the next attempt. *)
Theorem malformed_completion_fails_the_attempt
        (self : JSONExtractor.t) (prompt : pystr) (tr : trace)
        (response : completion) (attempt : Z) (rest : list Z) :
  _client self (requests_of tr) (request_of self prompt) = Ok response ->
  choices response = [] \/ (exists others, choices response = None :: others) ->
  exists e,
    (e = IndexError (lit "list index out of range")
     \/ e = AttributeError (lit "'NoneType' object has no attribute 'strip'"))
    /\ extract_loop self prompt (attempt :: rest) tr
       = extract_loop self prompt rest
           (tr ++ [ChatCompletion (request_of self prompt);
                   LogException attempt e]).
Proof.
  intros Hc Hm.
  rewrite extract_loop_cons. cbv zeta.
  unfold attempt_outcome. cbn [repeat]. rewrite app_nil_r, Hc.
  unfold parse_response, response_content.
  destruct Hm as [Hm | [others Hm]]; rewrite Hm; eexists;
    (split; [|cbn [is_Exception]; rewrite <- app_assoc; reflexivity]).
  - left. reflexivity.
  - right. reflexivity.
Qed.

Lemma malformed_completion_fails_the_attempt_witness :
  let self := scripted_extractor
                [ Ok {| choices := [] |}; reply (qlit "{'year': 2020}") ] in
  let prompt := _build_prompt sample_text in
  (choices {| choices := [] |} = []
   \/ exists others, choices {| choices := [] |} = None :: others)
  /\ exists e,
       (e = IndexError (lit "list index out of range")
        \/ e = AttributeError (lit "'NoneType' object has no attribute 'strip'"))
       /\ extract_loop self prompt [1; 2] []
          = extract_loop self prompt [2]
              [ChatCompletion (request_of self prompt); LogException 1 e].
Proof.
  intros self prompt.
  assert (H : choices {| choices := [] |} = []
              \/ exists others, choices {| choices := [] |} = None :: others)
    by (left; reflexivity).
  split; [exact H|].
  exact (malformed_completion_fails_the_attempt self prompt []
           {| choices := [] |} 1 [2] eq_refl H).
Defined.

(** ** The [with] statement of the PDF module *)

Lemma releases_app (a b : list PdfParser.event) :
  releases (a ++ b) = (releases a + releases b)%nat.
Proof. unfold releases. rewrite filter_app, length_app. reflexivity. Qed.

Lemma releases_reads (reads : list PdfParser.event) :
  Forall (fun ev => exists i, ev = GetText i) reads -> releases reads = 0%nat.
Proof.
  induction 1 as [|ev reads [i ->] _ IH]; [reflexivity|].
  unfold releases in *. cbn [filter]. exact IH.
Qed.

Lemma join_length (texts : list pystr) :
  List.length (join nl texts)
  = (list_sum (map (@List.length N) texts) + (List.length texts - 1))%nat.
Proof.
  induction texts as [|t texts IH]; [reflexivity|].
  destruct texts as [|t' texts].
  - cbn. lia.
  - change (join nl (t :: t' :: texts)) with (t ++ nl ++ join nl (t' :: texts)).
    rewrite !length_app, IH. change (List.length nl) with 1%nat.
    cbn [map List.length]. unfold list_sum. cbn [fold_right]. lia.
Qed.

(** X12. When every page yields its text, the [with] statement reads the
    pages in document order, each once, returns their texts joined by single
    newlines (none after the last page, the empty string for a document
    without pages) and releases the document last. *)
Theorem with_statement_joins_pages
        (L : libraries) (pdf_bytes : bytes) (doc : fitz_document)
        (texts : list pystr) (tr : list PdfParser.event) :
  fitz_open L pdf_bytes = Ok doc ->
  pages doc = map Ok texts ->
  with_fitz_open L pdf_bytes tr
  = (Ok (join nl texts),
     tr ++ [FitzOpen pdf_bytes (lit "pdf"); DocEnter]
        ++ map GetText (seq 0 (List.length texts)) ++ [DocExit])
  /\ (texts = [] -> join nl texts = [])
  /\ List.length (join nl texts)
     = (list_sum (map (@List.length N) texts) + (List.length texts - 1))%nat.
Proof.
  intros Ho Hp. destruct doc as [ps]. cbn [pages] in Hp. subst ps.
  split; [apply with_fitz_open_joins; exact Ho|].
  split; [intros ->; reflexivity | apply join_length].
Qed.

Lemma with_statement_joins_pages_witness :
  let L := stub_libraries two_pages in
  fitz_open L pdf_header = Ok {| pages := two_pages |}
  /\ with_fitz_open L pdf_header []
     = (Ok (lit "a" ++ nl ++ lit "b"), two_pages_read).
Proof.
  intros L. split; [reflexivity|].
  exact (proj1 (with_statement_joins_pages L pdf_header {| pages := two_pages |}
                  [lit "a"; lit "b"] [] eq_refl eq_refl)).
Defined.

(** X13. The [with] statement releases the document exactly once on every
    path on which it was opened, and that release is its last interaction;
    when [fitz.open] itself raises there is nothing to release and the error
    is passed on. *)
Theorem with_statement_releases_once
        (L : libraries) (pdf_bytes : bytes) (tr : list PdfParser.event) :
  match fitz_open L pdf_bytes with
  | Ok doc =>
      exists added,
        snd (with_fitz_open L pdf_bytes tr) = tr ++ added ++ [DocExit]
        /\ releases (added ++ [DocExit]) = 1%nat
  | Raise e =>
      with_fitz_open L pdf_bytes tr
      = (Raise e, tr ++ [FitzOpen pdf_bytes (lit "pdf")])
  end.
Proof.
  destruct (fitz_open L pdf_bytes) as [doc|e] eqn:Ho.
  - destruct (with_fitz_open_releases L pdf_bytes doc tr Ho) as [reads [E F]].
    exists ([FitzOpen pdf_bytes (lit "pdf"); DocEnter] ++ reads). split.
    + rewrite E, <- !app_assoc. reflexivity.
    + rewrite !releases_app, (releases_reads reads F). reflexivity.
  - unfold with_fitz_open, bind, emit, lift. rewrite Ho. reflexivity.
Qed.

Lemma page_texts_failure (texts : list pystr) (e : py_exn)
      (later : list (py_result pystr)) (i : nat) (tr : list PdfParser.event) :
  page_texts i (map Ok texts ++ Raise e :: later) tr
  = (Raise e, tr ++ map GetText (seq i (S (List.length texts)))).
Proof.
  revert i tr. induction texts as [|t texts IH]; intros i tr.
  - reflexivity.
  - cbn [map app page_texts]. unfold bind at 1. unfold bind at 1.
    unfold emit, lift. unfold bind at 1. rewrite IH.
    cbn [List.length seq map]. rewrite <- app_assoc. reflexivity.
Qed.

(** X14. When a page cannot be read, the [with] statement stops at that
    page: the pages after it are not read, the exception of that page is
    what the statement raises, and the document is released all the same. *)
Theorem with_statement_page_failure
        (L : libraries) (pdf_bytes : bytes) (doc : fitz_document)
        (texts : list pystr) (e : py_exn) (later : list (py_result pystr))
        (tr : list PdfParser.event) :
  fitz_open L pdf_bytes = Ok doc ->
  pages doc = map Ok texts ++ Raise e :: later ->
  with_fitz_open L pdf_bytes tr
  = (Raise e,
     tr ++ [FitzOpen pdf_bytes (lit "pdf"); DocEnter]
        ++ map GetText (seq 0 (S (List.length texts))) ++ [DocExit]).
Proof.
  intros Ho Hp. unfold with_fitz_open, bind, emit, lift, try_finally, ret.
  rewrite Ho, Hp.
  pose proof (page_texts_failure texts e later 0
                ((tr ++ [FitzOpen pdf_bytes (lit "pdf")]) ++ [DocEnter])) as P.
  rewrite P. cbn [snd]. rewrite <- !app_assoc. reflexivity.
Qed.

Lemma with_statement_page_failure_witness :
  let L := stub_libraries broken_pages in
  fitz_open L pdf_header = Ok {| pages := broken_pages |}
  /\ with_fitz_open L pdf_header []
     = (Raise (RuntimeError (lit "cannot read page")),
        [FitzOpen pdf_header (lit "pdf"); DocEnter; GetText 0; GetText 1; DocExit]).
Proof.
  intros L. split; [reflexivity|].
  exact (with_statement_page_failure L pdf_header {| pages := broken_pages |}
           [lit "a"] (RuntimeError (lit "cannot read page")) [Ok (lit "c")] []
           eq_refl eq_refl).
Defined.

(** ** The stages of [parse_and_embed] *)

Lemma page_content_documents (chunks : list pystr) :
  map page_content (map (fun txt => {| page_content := txt |}) chunks) = chunks.
Proof. rewrite map_map. cbn [page_content]. apply map_id. Qed.

Lemma nth_error_combine {A B} (l : list A) (l' : list B) (i : nat) (a : A) (b : B) :
  nth_error l i = Some a -> nth_error l' i = Some b ->
  nth_error (combine l l') i = Some (a, b).
Proof.
  revert l' i. induction l as [|x l IH]; intros l' i Ha Hb.
  - destruct i; discriminate.
  - destruct l' as [|y l']; [destruct i; discriminate|].
    destruct i as [|i]; cbn in *.
    + injection Ha as <-. injection Hb as <-. reflexivity.
    + apply IH; assumption.
Qed.

(** The run of [parse_and_embed] once the text is extracted, stage by
    stage. *)
Lemma parse_and_embed_run
      (L : libraries) (extract_text : bytes -> M PdfParser.event (option pystr))
      (pdf_bytes : bytes) (chunk_size chunk_overlap : Z)
      (return_vectorstore : bool)
      (tr tr1 : list PdfParser.event) (raw_text : option pystr) :
  extract_text pdf_bytes tr = (Ok raw_text, tr1) ->
  parse_and_embed L extract_text pdf_bytes chunk_size chunk_overlap
                  return_vectorstore tr
  = let init := SplitterInit chunk_size chunk_overlap in
    match RecursiveCharacterTextSplitter L chunk_size chunk_overlap with
    | Raise e => (Raise e, tr1 ++ [init])
    | Ok sp =>
        match split_text L sp raw_text with
        | Raise e => (Raise e, tr1 ++ [init; SplitText raw_text])
        | Ok chunks =>
            let tr3 := tr1 ++ [init; SplitText raw_text;
                               embedding_event return_vectorstore chunks] in
            if return_vectorstore
            then match FAISS_from_documents L (documents_of chunks) with
                 | Ok store => (Ok (inl store), tr3)
                 | Raise e => (Raise e, tr3)
                 end
            else match embed_documents L chunks with
                 | Ok vectors =>
                     (Ok (inr (combine (documents_of chunks) vectors)), tr3)
                 | Raise e => (Raise e, tr3)
                 end
        end
    end.
Proof.
  intros Ht. unfold parse_and_embed. unfold bind at 1. rewrite Ht.
  unfold bind at 1. unfold bind at 1. unfold emit, lift. cbv zeta.
  destruct (RecursiveCharacterTextSplitter L chunk_size chunk_overlap) as [sp|e];
    [|reflexivity].
  unfold bind at 1. unfold bind at 1.
  destruct (split_text L sp raw_text) as [chunks|e];
    [|rewrite <- app_assoc; reflexivity].
  destruct return_vectorstore; unfold bind, ret, documents_of;
    cbn [embedding_event].
  - destruct (FAISS_from_documents L _); rewrite <- !app_assoc; reflexivity.
  - rewrite page_content_documents.
    destruct (embed_documents L chunks); rewrite <- !app_assoc; reflexivity.
Qed.



(** X16. In manual mode ([return_vectorstore=False]) the result pairs the
    i-th chunk, wrapped in a [Document], with the i-th vector of the
    embedding client; FAISS is not touched; and when the client returns
    fewer vectors than there are chunks the chunks beyond are dropped
    without an error, as [zip] does. *)
Theorem parse_and_embed_manual_pairs
        (L : libraries) (extract_text : bytes -> M PdfParser.event (option pystr))
        (pdf_bytes : bytes) (chunk_size chunk_overlap : Z)
        (tr tr1 : list PdfParser.event) (raw_text : option pystr)
        (sp : splitter L) (chunks : list pystr) (vectors : list (vector L)) :
  extract_text pdf_bytes tr = (Ok raw_text, tr1) ->
  RecursiveCharacterTextSplitter L chunk_size chunk_overlap = Ok sp ->
  split_text L sp raw_text = Ok chunks ->
  embed_documents L chunks = Ok vectors ->
  exists pairs,
    parse_and_embed L extract_text pdf_bytes chunk_size chunk_overlap false tr
    = (Ok (inr pairs),
       tr1 ++ [SplitterInit chunk_size chunk_overlap; SplitText raw_text;
               EmbedDocuments chunks])
    /\ List.length pairs = Nat.min (List.length chunks) (List.length vectors)
    /\ forall i chunk vec,
         nth_error chunks i = Some chunk -> nth_error vectors i = Some vec ->
         nth_error pairs i = Some ({| page_content := chunk |}, vec).
Proof.
  intros Ht Hs Hc He.
  exists (combine (documents_of chunks) vectors). split; [|split].
  - rewrite (parse_and_embed_run L extract_text pdf_bytes chunk_size chunk_overlap
               false tr tr1 raw_text Ht). cbv zeta.
    rewrite Hs, Hc, He. reflexivity.
  - rewrite length_combine. unfold documents_of. rewrite length_map. reflexivity.
  - intros i chunk vec Hi Hv. apply nth_error_combine; [|exact Hv].
    unfold documents_of. rewrite nth_error_map, Hi. reflexivity.
Qed.

Lemma parse_and_embed_manual_pairs_witness :
  let L := stub_libraries two_pages in
  read_text L pdf_header [] = (Ok (Some (lit "a" ++ nl ++ lit "b")), two_pages_read)
  /\ exists pairs,
       parse_and_embed L (read_text L) pdf_header 1200 240 false []
       = (Ok (inr pairs),
          two_pages_read
          ++ [SplitterInit 1200 240; SplitText (Some (lit "a" ++ nl ++ lit "b"));
              EmbedDocuments [lit "a" ++ nl ++ lit "b"]])
       /\ List.length pairs = 1%nat.
Proof.
  intros L. split; [reflexivity|].
  destruct (parse_and_embed_manual_pairs L (read_text L) pdf_header 1200 240
              [] two_pages_read (Some (lit "a" ++ nl ++ lit "b"))
              (1200, 240) [lit "a" ++ nl ++ lit "b"] [tt]
              eq_refl eq_refl eq_refl eq_refl) as [pairs [H1 [H2 _]]].
  exists pairs. split; [exact H1 | exact H2].
Defined.

(** X17. An empty list of chunks is not short-circuited: the embedding
    interaction of the requested mode is still made, with no document or no
    text; in manual mode the result is then the empty list whatever the
    client returns. *)
Theorem parse_and_embed_embeds_nothing
        (L : libraries) (extract_text : bytes -> M PdfParser.event (option pystr))
        (pdf_bytes : bytes) (chunk_size chunk_overlap : Z)
        (return_vectorstore : bool)
        (tr tr1 : list PdfParser.event) (raw_text : option pystr)
        (sp : splitter L) :
  extract_text pdf_bytes tr = (Ok raw_text, tr1) ->
  RecursiveCharacterTextSplitter L chunk_size chunk_overlap = Ok sp ->
  split_text L sp raw_text = Ok [] ->
  let run := parse_and_embed L extract_text pdf_bytes chunk_size chunk_overlap
                             return_vectorstore tr in
  snd run
  = tr1 ++ [SplitterInit chunk_size chunk_overlap; SplitText raw_text;
            if return_vectorstore then FaissFromDocuments [] else EmbedDocuments []]
  /\ fst run
     = if return_vectorstore
       then match FAISS_from_documents L [] with
            | Ok store => Ok (inl store)
            | Raise e => Raise e
            end
       else match embed_documents L [] with
            | Ok _ => Ok (inr [])
            | Raise e => Raise e
            end.
Proof.
  intros Ht Hs Hc run. unfold run.
  rewrite (parse_and_embed_run L extract_text pdf_bytes chunk_size chunk_overlap
             return_vectorstore tr tr1 raw_text Ht). cbv zeta.
  rewrite Hs, Hc. unfold documents_of. cbn [map].
  destruct return_vectorstore; cbn [embedding_event map].
  - destruct (FAISS_from_documents L []); split; reflexivity.
  - destruct (embed_documents L []); split; reflexivity.
Qed.

Lemma parse_and_embed_embeds_nothing_witness :
  let L := stub_libraries [] in
  let run := parse_and_embed L (read_text L) pdf_header 1200 240 true [] in
  read_text L pdf_header []
  = (Ok (Some []), [FitzOpen pdf_header (lit "pdf"); DocEnter; DocExit])
  /\ snd run
     = [FitzOpen pdf_header (lit "pdf"); DocEnter; DocExit]
       ++ [SplitterInit 1200 240; SplitText (Some []); FaissFromDocuments []]
  /\ fst run = Ok (inl []).
Proof.
  intros L run. split; [reflexivity|].
  exact (parse_and_embed_embeds_nothing L (read_text L) pdf_header 1200 240 true
           [] [FitzOpen pdf_header (lit "pdf"); DocEnter; DocExit] (Some [])
           (1200, 240) eq_refl eq_refl eq_refl).
Defined.

(** ** The prompt and the document *)

(** X18. The prompt determines the document: two raw texts that give the
    same prompt are the same text, so no two different fact sheets are ever
    sent as the same request. *)
Theorem build_prompt_injective (raw_text raw_text' : pystr) :
  _build_prompt raw_text = _build_prompt raw_text' ->
  raw_text = raw_text'.
Proof.
  unfold _build_prompt. cbv zeta. intros H.
  apply app_inv_head in H. apply app_inv_head in H. apply app_inv_head in H.
  apply app_inv_tail in H. apply app_inv_tail in H. exact H.
Qed.

Lemma build_prompt_injective_witness :
  _build_prompt sample_text = _build_prompt (lit "ITDB 2020 " ++ lit "fact sheet")
  /\ sample_text = lit "ITDB 2020 " ++ lit "fact sheet".
Proof.
  assert (H : _build_prompt sample_text
              = _build_prompt (lit "ITDB 2020 " ++ lit "fact sheet"))
    by reflexivity.
  split; [exact H|].
  exact (build_prompt_injective _ _ H).
Defined.
